(** * adafruit_rgb_display.rgb: the RGB display driver core

    A shallow embedding of [adafruit_rgb_display/rgb.py]: the 565 pixel
    codec, the [Display] base class (windowing, pixel access, image blit,
    rectangle fill) and the [DisplaySPI] transport.

    Python integers are unbounded, so they are [Z]; [bytes] and [bytearray]
    are lists of integers in [0, 256); exceptions are values of [exn].
    Pure fallible code lives in [result]; code that talks to the bus lives
    in [io], the tree of [self.write] / [self.read] calls it performs.

    Left out: [DummyPin], the reset pulse and its sleeps, and the wiring done
    by [DisplaySPI.__init__]; PIL images appear only through [mode], [size],
    [getpixel] and [rotate]. *)

From Stdlib Require Import Ascii.
From stdpp Require Import base numbers list strings pretty.

Local Open Scope Z_scope.

(** ** Exceptions and results *)

Inductive exn : Type :=
| struct_error
| TypeError
| IndexError
| ZeroDivisionError
| ValueError (msg : string).

Inductive result (A : Type) : Type :=
| Ok (a : A)
| Err (e : exn).
Arguments Ok {A} a.
Arguments Err {A} e.

Global Instance result_ret : MRet result := @Ok.
Global Instance result_bind : MBind result :=
  λ A B f m, match m with Ok a => f a | Err e => Err e end.
Global Instance result_fmap : FMap result :=
  λ A B f m, match m with Ok a => Ok (f a) | Err e => Err e end.

Abbreviation bytes := (list Z).

(** Python objects that reach the codec: [None], an int, or a sequence of
    ints (a PIL pixel, a caller's colour tuple). *)
Inductive pyval : Type :=
| PyNone
| PyInt (n : Z)
| PyTuple (items : list Z).

(** ** The part of [struct] the driver uses: big-endian [B] and [H] codes *)

Module struct.

Inductive code : Type := B | H.

Definition code_size (c : code) : Z :=
  match c with B => 1 | H => 2 end.

Fixpoint calcsize (fmt : list code) : Z :=
  match fmt with
  | [] => 0
  | c :: fmt' => code_size c + calcsize fmt'
  end.

Definition pack_code (c : code) (v : Z) : result bytes :=
  match c with
  | B => if bool_decide (0 <= v <= 255) then Ok [v] else Err struct_error
  | H => if bool_decide (0 <= v <= 65535)
         then Ok [v `div` 256; v `mod` 256] else Err struct_error
  end.

Fixpoint pack (fmt : list code) (vals : list Z) : result bytes :=
  match fmt, vals with
  | [], [] => Ok []
  | c :: fmt', v :: vals' =>
      b ← pack_code c v;
      rest ← pack fmt' vals';
      Ok (b ++ rest)
  | _, _ => Err struct_error
  end.

Fixpoint unpack_codes (fmt : list code) (data : bytes) : result (list Z) :=
  match fmt with
  | [] => Ok []
  | B :: fmt' =>
      match data with
      | v :: data' => rest ← unpack_codes fmt' data'; Ok (v :: rest)
      | _ => Err struct_error
      end
  | H :: fmt' =>
      match data with
      | hi :: lo :: data' =>
          rest ← unpack_codes fmt' data'; Ok (hi * 256 + lo :: rest)
      | _ => Err struct_error
      end
  end.

Definition unpack (fmt : list code) (data : bytes) : result (list Z) :=
  if bool_decide (Z.of_nat (length data) = calcsize fmt)
  then unpack_codes fmt data
  else Err struct_error.

End struct.

(** ** Module-level code *)

(** [bytes * n]: [n] copies, none when [n <= 0]. *)
Definition bytes_mul (b : bytes) (n : Z) : bytes :=
  concat (replicate (Z.to_nat n) b).

(** [bytearray(n)]. *)
Definition bytearray (n : Z) : result bytes :=
  if bool_decide (n < 0) then Err (ValueError "negative count")
  else Ok (replicate (Z.to_nat n) 0).

(** [buf[i] = v] on a bytearray: a negative index counts from the end. *)
Definition bytearray_setitem (buf : bytes) (i v : Z) : result bytes :=
  let len := Z.of_nat (length buf) in
  let j := if bool_decide (i < 0) then i + len else i in
  if bool_decide (0 <= j < len) then
    if bool_decide (0 <= v < 256) then Ok (<[Z.to_nat j := v]> buf)
    else Err (ValueError "byte must be in range(0, 256)")
  else Err IndexError.

Definition divmod (a b : Z) : result (Z * Z) :=
  if bool_decide (b = 0) then Err ZeroDivisionError
  else Ok (a `div` b, a `mod` b).

(** [color565(r, g=0, b=0)].  The [try] unpacks a sequence passed as the
    first argument; only [TypeError] (the first argument is not iterable) is
    caught, a sequence of the wrong length raises [ValueError]. *)
Definition color565 (r : pyval) (g b : Z) : result Z :=
  '(r, g, b) ←
    match r with
    | PyTuple [r'; g'; b'] => Ok (PyInt r', g', b')
    | PyTuple (_ :: _ :: _ :: _ :: _) =>
        Err (ValueError "too many values to unpack (expected 3)")
    | PyTuple items =>
        Err (ValueError ("not enough values to unpack (expected 3, got "
                         +:+ pretty (length items) +:+ ")"))
    | _ => Ok (r, g, b)
    end;
  match r with
  | PyInt r =>
      Ok (Z.lor (Z.lor (Z.shiftl (Z.land r 0xf8) 8)
                       (Z.shiftl (Z.land g 0xfc) 3))
                (Z.shiftr b 3))
  | _ => Err TypeError
  end.

(** [color565] applied to an argument tuple, as [_decode_pixel] calls it. *)
Definition color565_star (args : list Z) : result Z :=
  match args with
  | [r] => color565 (PyInt r) 0 0
  | [r; g] => color565 (PyInt r) g 0
  | [r; g; b] => color565 (PyInt r) g b
  | _ => Err TypeError
  end.

(** The fill buffer size, in 16-bit units, is chosen at import time from the
    platform: the whole 320x240 panel on CPython, half of pyftdi's maximal
    SPI payload under [BLINKA_FT232H], 256 elsewhere. *)
Inductive platform : Type :=
| CPython
| CPython_FT232H (PAYLOAD_MAX_LENGTH : Z)
| CircuitPython.

Definition buffer_size_of (p : platform) : Z :=
  match p with
  | CPython => 320 * 240
  | CPython_FT232H PAYLOAD_MAX_LENGTH => PAYLOAD_MAX_LENGTH `div` 2
  | CircuitPython => 256
  end.

(** ** Bus programs

    [Display] never touches the link itself: it calls [self.write(command,
    data)] and [self.read(command, count)], which a subclass provides.  A
    method of [Display] is therefore the tree of the calls it makes, in
    order, with the bytes a read returns fed to what follows. *)

Inductive io (A : Type) : Type :=
| Ret (a : A)
| Raise (e : exn)
| Write (command : option Z) (data : option bytes) (k : io A)
| Read (command : option Z) (count : Z) (k : bytes → io A).
Arguments Ret {A} a.
Arguments Raise {A} e.
Arguments Write {A} command data k.
Arguments Read {A} command count k.

Fixpoint io_bind {A B : Type} (f : A → io B) (m : io A) : io B :=
  match m with
  | Ret a => f a
  | Raise e => Raise e
  | Write c d k => Write c d (io_bind f k)
  | Read c n k => Read c n (λ data, io_bind f (k data))
  end.

Global Instance io_mret : MRet io := @Ret.
Global Instance io_mbind : MBind io := @io_bind.

Definition write (command : option Z) (data : option bytes) : io unit :=
  Write command data (Ret tt).

Definition read (command : option Z) (count : Z) : io bytes :=
  Read command count Ret.

(** A pure, fallible step inside a bus program. *)
Definition lift {A : Type} (r : result A) : io A :=
  match r with Ok a => Ret a | Err e => Raise e end.

(** [for _ in range(n): body]. *)
Fixpoint for_range_io (n : nat) (body : io unit) : io unit :=
  match n with
  | O => Ret tt
  | S n' => _ ← body; for_range_io n' body
  end.

(** [for i in xs: s = body(i, s)] over a pure, fallible body. *)
Fixpoint for_in {S : Type} (xs : list Z) (body : Z → S → result S) (s : S)
  : result S :=
  match xs with
  | [] => Ok s
  | i :: xs' => s' ← body i s; for_in xs' body s'
  end.

(** [range(n)]. *)
Definition range (n : Z) : list Z := seqZ 0 n.

(** ** Transports *)

Record BusTransport (S : Type) : Type := {
  bus_write : option Z → option bytes → S → result unit * S;
  bus_read : option Z → Z → S → result bytes * S
}.
Arguments bus_write {S} _ _ _ _.
Arguments bus_read {S} _ _ _ _.

(** Running a bus program on a transport.  An exception leaves the link in
    the state it had when it was raised. *)
Fixpoint run {S A : Type} (T : BusTransport S) (p : io A) (s : S)
  : result A * S :=
  match p with
  | Ret a => (Ok a, s)
  | Raise e => (Err e, s)
  | Write c d k =>
      match bus_write T c d s with
      | (Ok _, s') => run T k s'
      | (Err e, s') => (Err e, s')
      end
  | Read c n k =>
      match bus_read T c n s with
      | (Ok data, s') => run T (k data) s'
      | (Err e, s') => (Err e, s')
      end
  end.

(** *** A transport that records the calls it receives *)

Inductive call : Type :=
| CWrite (command : option Z) (data : option bytes)
| CRead (command : option Z) (count : Z).

(** [panel] is what the controller answers to a read, given the calls it
    has seen so far. *)
Definition Recorder (panel : list call → Z → bytes)
  : BusTransport (list call) := {|
  bus_write c d log := (Ok tt, log ++ [CWrite c d]);
  bus_read c n log := (Ok (panel log n), log ++ [CRead c n])
|}.

(** The bytes a call sends in data mode. *)
Definition data_of (c : call) : bytes :=
  match c with
  | CWrite _ (Some d) => d
  | _ => []
  end.

Definition data_bytes (cs : list call) : bytes :=
  concat (data_of <$> cs).

(** *** [DisplaySPI]: the SPI link with its data/command pin *)

Inductive transfer : Type :=
| spi_write (dc : Z) (buf : bytes)
| spi_readinto (dc : Z) (n : Z).

Record spi_link : Type := {
  dc_pin : Z;                 (* self.dc_pin.value *)
  wire : list transfer;       (* transfers made so far, oldest first *)
  miso : bytes                (* bytes the panel will shift out *)
}.

Definition set_dc (v : Z) (s : spi_link) : spi_link :=
  {| dc_pin := v; wire := wire s; miso := miso s |}.

Definition do_spi_write (buf : bytes) (s : spi_link) : spi_link :=
  {| dc_pin := dc_pin s;
     wire := wire s ++ [spi_write (dc_pin s) buf];
     miso := miso s |}.

(** [spi.readinto(data)]: the buffer is filled from the line; an idle line
    reads as zeros. *)
Definition do_spi_readinto (n : Z) (s : spi_link) : bytes * spi_link :=
  (resize (Z.to_nat n) 0 (miso s),
   {| dc_pin := dc_pin s;
      wire := wire s ++ [spi_readinto (dc_pin s) n];
      miso := drop (Z.to_nat n) (miso s) |}).

(** [bytearray([command])]. *)
Definition command_byte (command : Z) : result bytes :=
  if bool_decide (0 <= command < 256) then Ok [command]
  else Err (ValueError "byte must be in range(0, 256)").

Definition send_command (command : option Z) (s : spi_link)
  : result unit * spi_link :=
  match command with
  | Some c =>
      let s := set_dc 0 s in
      match command_byte c with
      | Ok b => (Ok tt, do_spi_write b s)
      | Err e => (Err e, s)
      end
  | None => (Ok tt, s)
  end.

Definition DisplaySPI_write (command : option Z) (data : option bytes)
    (s : spi_link) : result unit * spi_link :=
  match send_command command s with
  | (Err e, s) => (Err e, s)
  | (Ok _, s) =>
      match data with
      | Some d => (Ok tt, do_spi_write d (set_dc 1 s))
      | None => (Ok tt, s)
      end
  end.

Definition DisplaySPI_read (command : option Z) (count : Z) (s : spi_link)
  : result bytes * spi_link :=
  match bytearray count with
  | Err e => (Err e, s)
  | Ok data =>
      match send_command command (set_dc 0 s) with
      | (Err e, s) => (Err e, s)
      | (Ok _, s) =>
          if bool_decide (count ≠ 0) then
            let '(data, s) := do_spi_readinto count s in (Ok data, s)
          else (Ok data, s)
      end
  end.

Definition DisplaySPI : BusTransport spi_link := {|
  bus_write := DisplaySPI_write;
  bus_read := DisplaySPI_read
|}.

(** ** [Display] *)

(** The class attributes a controller subclass overrides, the panel size
    given to [__init__] and the offsets [DisplaySPI.__init__] stores. *)
Record Display : Type := {
  width : Z;
  height : Z;
  _PAGE_SET : option Z;
  _COLUMN_SET : option Z;
  _RAM_WRITE : option Z;
  _RAM_READ : option Z;
  _X_START : Z;
  _Y_START : Z;
  _INIT : list (option Z * option bytes)
}.

(** The formats ">H", ">HH" and ">BBB" of the class. *)
Definition _ENCODE_PIXEL : list struct.code := [struct.H].
Definition _ENCODE_POS : list struct.code := [struct.H; struct.H].
Definition _DECODE_PIXEL : list struct.code := [struct.B; struct.B; struct.B].

(** What the driver uses of a PIL image. *)
Record Image : Type := {
  mode : string;
  size : Z * Z;
  getpixel : Z * Z → pyval
}.

Section Driver.

(** The module constant [_BUFFER_SIZE]. *)
Variable _BUFFER_SIZE : Z.

(** PIL's [img.rotate(angle, expand=True)]. *)
Variable rotate : Image → Z → Image.

Definition init (self : Display) : io unit :=
  foldr (λ '(command, data) rest, _ ← write command data; rest)
        (Ret tt) (_INIT self).

Definition _encode_pos (x y : Z) : result bytes :=
  struct.pack _ENCODE_POS [x; y].

Definition _encode_pixel (color : Z) : result bytes :=
  struct.pack _ENCODE_PIXEL [color].

Definition _decode_pixel (data : option bytes) : result Z :=
  match data with
  | Some data => args ← struct.unpack _DECODE_PIXEL data; color565_star args
  | None => Err TypeError
  end.

(** [_block(x0, y0, x1, y1, data=None)]: the arguments of each [write] are
    evaluated before the call is made. *)
Definition _block (self : Display) (x0 y0 x1 y1 : Z) (data : option bytes)
  : io (option bytes) :=
  cols ← lift (_encode_pos (x0 + _X_START self) (x1 + _X_START self));
  _ ← write (_COLUMN_SET self) (Some cols);
  rows ← lift (_encode_pos (y0 + _Y_START self) (y1 + _Y_START self));
  _ ← write (_PAGE_SET self) (Some rows);
  match data with
  | None =>
      let size := struct.calcsize _DECODE_PIXEL in
      got ← read (_RAM_READ self) ((x1 - x0 + 1) * (y1 - y0 + 1) * size);
      Ret (Some got)
  | Some data =>
      _ ← write (_RAM_WRITE self) (Some data);
      Ret None
  end.

(** [pixel(x, y, color=None)]. *)
Definition pixel (self : Display) (x y : Z) (color : option Z) : io pyval :=
  match color with
  | None =>
      data ← _block self x y x y None;
      v ← lift (_decode_pixel data);
      Ret (PyInt v)
  | Some color =>
      if bool_decide (0 <= x < width self ∧ 0 <= y < height self) then
        px ← lift (_encode_pixel color);
        _ ← _block self x y x y (Some px);
        Ret PyNone
      else Ret PyNone
  end.

(** The body of the double loop of [image]. *)
Definition image_store (self : Display) (img : Image) (x y : Z)
    (pixels : bytes) : result bytes :=
  pix ← color565 (getpixel img (x, y)) 0 0;
  pixels ← bytearray_setitem pixels (2 * (y * width self + x))
                             (Z.shiftr pix 8);
  bytearray_setitem pixels (2 * (y * width self + x) + 1) (Z.land pix 0xFF).

Definition image (self : Display) (img : Image) (rotation : Z) : io unit :=
  if bool_decide (mode img ∉ ["RGB"; "RGBA"]) then
    Raise (ValueError "Image must be in mode RGB or RGBA")
  else if bool_decide (rotation ∉ [0; 90; 180; 270]) then
    Raise (ValueError "Rotation must be 0/90/180/270")
  else
    let img := if bool_decide (rotation ≠ 0) then rotate img rotation
               else img in
    let '(imwidth, imheight) := size img in
    if bool_decide (imwidth ≠ width self ∨ imheight ≠ height self) then
      Raise (ValueError ("Image must be same dimensions as display ("
                         +:+ pretty (width self) +:+ "x"
                         +:+ pretty (height self) +:+ ")."))
    else
      pixels ← lift (bytearray (width self * height self * 2));
      pixels ← lift (for_in (range (width self))
                       (λ x, for_in (range (height self))
                               (λ y, image_store self img x y))
                       pixels);
      _ ← _block self 0 0 (width self - 1) (height self - 1) (Some pixels);
      Ret tt.

Definition fill_rectangle (self : Display) (x y w h color : Z) : io unit :=
  let x := Z.min (width self - 1) (Z.max 0 x) in
  let y := Z.min (height self - 1) (Z.max 0 y) in
  let w := Z.min (width self - x) (Z.max 1 w) in
  let h := Z.min (height self - y) (Z.max 1 h) in
  _ ← _block self x y (x + w - 1) (y + h - 1) (Some []);
  '(chunks, rest) ← lift (divmod (w * h) _BUFFER_SIZE);
  px ← lift (_encode_pixel color);
  _ ← (if bool_decide (chunks ≠ 0) then
         let data := bytes_mul px _BUFFER_SIZE in
         for_range_io (Z.to_nat chunks) (write None (Some data))
       else Ret tt);
  write None (Some (bytes_mul px rest)).

Definition fill (self : Display) (color : Z) : io unit :=
  fill_rectangle self 0 0 (width self) (height self) color.

Definition hline (self : Display) (x y w color : Z) : io unit :=
  fill_rectangle self x y w 1 color.

Definition vline (self : Display) (x y h color : Z) : io unit :=
  fill_rectangle self x y 1 h color.

End Driver.

(** ** Vocabulary of the statements *)

(** The packing formula as the specification words it. *)
Definition pack565_spec (r g b : Z) : Z :=
  Z.lor (Z.lor (Z.shiftl (Z.land r 0xF8) 8) (Z.shiftl (Z.land g 0xFC) 3))
        (Z.shiftr b 3).

Definition fits16 (v : Z) : Prop := 0 <= v < 65536.

(** The rectangle [fill_rectangle] keeps of its arguments. *)
Definition clamp_x (self : Display) (x : Z) : Z :=
  Z.min (width self - 1) (Z.max 0 x).
Definition clamp_y (self : Display) (y : Z) : Z :=
  Z.min (height self - 1) (Z.max 0 y).
Definition clamp_w (self : Display) (x w : Z) : Z :=
  Z.min (width self - clamp_x self x) (Z.max 1 w).
Definition clamp_h (self : Display) (y h : Z) : Z :=
  Z.min (height self - clamp_y self y) (Z.max 1 h).

(** The three calls that open a block write over [x0..x1] x [y0..y1]. *)
Definition window_calls (self : Display) (cols rows : bytes) (ram : call)
  : list call :=
  [CWrite (_COLUMN_SET self) (Some cols); CWrite (_PAGE_SET self) (Some rows);
   ram].

(** The rectangle fill with one unbounded write in place of the chunks. *)
Definition fill_rectangle_unchunked (self : Display) (x y w h color : Z)
  : io unit :=
  let x := Z.min (width self - 1) (Z.max 0 x) in
  let y := Z.min (height self - 1) (Z.max 0 y) in
  let w := Z.min (width self - x) (Z.max 1 w) in
  let h := Z.min (height self - y) (Z.max 1 h) in
  _ ← _block self x y (x + w - 1) (y + h - 1) (Some []);
  px ← lift (_encode_pixel color);
  write None (Some (bytes_mul px (w * h))).

(** The image [image] measures and reads: rotated unless [rotation] is 0. *)
Definition rotated (rotate : Image → Z → Image) (img : Image) (rotation : Z)
  : Image :=
  if bool_decide (rotation ≠ 0) then rotate img rotation else img.

(** The errors of [image]'s own argument checks. *)
Inductive validation_error (self : Display) : exn → Prop :=
| bad_mode :
    validation_error self (ValueError "Image must be in mode RGB or RGBA")
| bad_rotation :
    validation_error self (ValueError "Rotation must be 0/90/180/270")
| bad_size :
    validation_error self
      (ValueError ("Image must be same dimensions as display ("
                   +:+ pretty (width self) +:+ "x"
                   +:+ pretty (height self) +:+ ").")).

(** The errors that come from the codec and the buffer, told from those of
    the argument checks by the first letter of their message. *)
Definition internal_error (e : exn) : Prop :=
  match e with
  | ValueError (String c _) => c = "t"%char ∨ c = "n"%char ∨ c = "b"%char
  | ValueError EmptyString => False
  | _ => True
  end.

(** PIL's [rotate] with [expand=True] at the quarter turns, counter-clockwise
    as PIL turns; other angles are not used. *)
Definition pil_rotate (img : Image) (angle : Z) : Image :=
  let '(w, h) := size img in
  if bool_decide (angle = 90) then
    {| mode := mode img; size := (h, w);
       getpixel := λ '(x, y), getpixel img (w - 1 - y, x) |}
  else if bool_decide (angle = 180) then
    {| mode := mode img; size := (w, h);
       getpixel := λ '(x, y), getpixel img (w - 1 - x, h - 1 - y) |}
  else if bool_decide (angle = 270) then
    {| mode := mode img; size := (h, w);
       getpixel := λ '(x, y), getpixel img (y, h - 1 - x) |}
  else img.

(** A one-pixel image of the given mode. *)
Definition one_pixel (m : string) (p : list Z) : Image :=
  {| mode := m; size := (1, 1); getpixel := λ _, PyTuple p |}.

(** The calls that carry [n] pixels through a buffer of [size] pixels. *)
Definition chunk_calls (px : bytes) (size n : Z) : list call :=
  replicate (Z.to_nat (n `div` size)) (CWrite None (Some (bytes_mul px size)))
  ++ [CWrite None (Some (bytes_mul px (n `mod` size)))].

(** An image whose pixels are three channel bytes, as PIL delivers them in
    mode RGB. *)
Definition rgb_pixels (img : Image) : Prop :=
  ∀ x y, 0 <= x < (size img).1 → 0 <= y < (size img).2 →
    ∃ r g b, getpixel img (x, y) = PyTuple [r; g; b]
             ∧ 0 <= r <= 255 ∧ 0 <= g <= 255 ∧ 0 <= b <= 255.

(** The 565 value of the pixel at (x, y). *)
Definition pixel565 (img : Image) (x y : Z) : Z :=
  match getpixel img (x, y) with
  | PyTuple [r; g; b] => pack565_spec r g b
  | _ => 0
  end.

(** A buffer that holds the 565 value of pixel (x, y), high byte first, at
    byte offset [2 * (y * width + x)]. *)
Definition holds_pixel (self : Display) (img : Image) (buf : bytes) (x y : Z)
  : Prop :=
  buf !! Z.to_nat (2 * (y * width self + x))
    = Some (Z.shiftr (pixel565 img x y) 8)
  ∧ buf !! Z.to_nat (2 * (y * width self + x) + 1)
    = Some (Z.land (pixel565 img x y) 0xFF).

(** A panel of [w] x [h] pixels behind an ILI9341-style command set. *)
Definition panel_of (w h x_offset y_offset : Z) : Display := {|
  width := w; height := h;
  _PAGE_SET := Some 0x2B; _COLUMN_SET := Some 0x2A;
  _RAM_WRITE := Some 0x2C; _RAM_READ := Some 0x2E;
  _X_START := x_offset; _Y_START := y_offset;
  _INIT := []
|}.

(** The calls [init] replays. *)
Definition init_calls (self : Display) : list call :=
  (λ '(command, data), CWrite command data) <$> _INIT self.

(** A controller that answers every read with the same bytes. *)
Definition answering (data : bytes) : list call → Z → bytes := λ _ _, data.

Definition idle_link : spi_link := {| dc_pin := 0; wire := []; miso := [] |}.

(** The 2x2 panel of the specification's example, filled with pure red by a
    controller that shifts out (248, 0, 0) when read. *)
Definition red_panel : list call → Z → bytes := answering [248; 0; 0].

Definition red_fill_log : list call :=
  (run (Recorder red_panel) (fill 256 (panel_of 2 2 0 0) 0xF800) []).2.

Definition red_fill_then_read : io pyval :=
  _ ← fill 256 (panel_of 2 2 0 0) 0xF800; pixel (panel_of 2 2 0 0) 1 1 None.

(** ** Vocabulary of the link

    How the calls of a bus program show on the SPI link. *)

(** The bytes [bytearray([command])] holds when [command] is a byte. *)
Definition command_ok (command : option Z) : Prop :=
  match command with
  | Some b => 0 <= b < 256
  | None => True
  end.

(** A call [DisplaySPI] can carry out: its command, if any, is a byte and a
    read asks for no negative count. *)
Definition sendable (c : call) : Prop :=
  match c with
  | CWrite command _ => command_ok command
  | CRead command count => command_ok command ∧ 0 <= count
  end.

Definition command_transfer (command : option Z) : list transfer :=
  match command with
  | Some b => [spi_write 0 [b]]
  | None => []
  end.

(** The transfers of one call: the command byte with the data/command pin
    low, written data with the pin high, a read with the pin low. *)
Definition wire_of_call (c : call) : list transfer :=
  match c with
  | CWrite command data =>
      command_transfer command
      ++ match data with Some d => [spi_write 1 d] | None => [] end
  | CRead command count =>
      command_transfer command
      ++ (if bool_decide (count ≠ 0) then [spi_readinto 0 count] else [])
  end.

(** The level of the data/command pin after a call. *)
Definition dc_after (dc : Z) (c : call) : Z :=
  match c with
  | CWrite _ (Some _) => 1
  | CWrite (Some _) None => 0
  | CWrite None None => dc
  | CRead _ _ => 0
  end.

(** The number of bytes the reads of a log have taken from the line. *)
Definition read_count (c : call) : nat :=
  match c with
  | CRead _ count => Z.to_nat count
  | CWrite _ _ => 0%nat
  end.

Definition consumed (log : list call) : nat := sum_list (read_count <$> log).

(** The controller seen through the line: a read is answered with the next
    bytes of [line], zeros once it is exhausted. *)
Definition miso_panel (line : bytes) : list call → Z → bytes :=
  λ log n, resize (Z.to_nat n) 0 (drop (consumed log) line).

(** The bytes that went out with the data/command pin high. *)
Definition data_mode_bytes (w : list transfer) : bytes :=
  concat ((λ t, match t with
                | spi_write dc buf => if bool_decide (dc = 1) then buf else []
                | spi_readinto _ _ => []
                end) <$> w).

(** * Properties *)

(** ** The 565 codec *)

Lemma lor_range (n a b : Z) :
  0 < n →
  0 <= Z.lor a b < 2 ^ n ↔ (0 <= a < 2 ^ n) ∧ (0 <= b < 2 ^ n).
Proof.
  intros Hn.
  assert (Hlog : ∀ x, 0 <= x → (x < 2 ^ n ↔ Z.log2 x < n)).
  { intros x Hx. destruct (decide (x = 0)) as [-> | Hne].
    - change (Z.log2 0) with 0.
      split; intros _; [lia | by apply Z.pow_pos_nonneg; lia].
    - apply Z.log2_lt_pow2. lia. }
  rewrite Z.lor_nonneg. split.
  - intros [[Ha Hb] Hlt]. apply Hlog in Hlt; [| by apply Z.lor_nonneg].
    rewrite Z.log2_lor in Hlt by done.
    split; (split; [done | apply Hlog; [done | lia]]).
  - intros [[Ha Ha'] [Hb Hb']]. split; [done |].
    apply Hlog; [by apply Z.lor_nonneg |].
    rewrite Z.log2_lor by done. apply Hlog in Ha', Hb'; [lia | done | done].
Qed.

Lemma land_mask_range (x m : Z) : 0 <= m → 0 <= Z.land x m <= m.
Proof.
  intros Hm. split; [apply Z.land_nonneg; by right |].
  (* [m] splits into the bits kept by [x] and the bits dropped by it *)
  assert (Hdisj : Z.land (Z.land x m) (Z.ldiff m x) = 0).
  { apply Z.bits_inj'. intros i Hi.
    rewrite Z.land_spec, Z.land_spec, Z.ldiff_spec, Z.bits_0.
    by destruct (Z.testbit x i), (Z.testbit m i). }
  assert (Hcover : Z.lor (Z.land x m) (Z.ldiff m x) = m).
  { apply Z.bits_inj'. intros i Hi.
    rewrite Z.lor_spec, Z.land_spec, Z.ldiff_spec.
    by destruct (Z.testbit x i), (Z.testbit m i). }
  apply Z.add_nocarry_lor in Hdisj. rewrite Hcover in Hdisj.
  assert (0 <= Z.ldiff m x) by (apply Z.ldiff_nonneg; by left).
  lia.
Qed.

Lemma color565_int (r g b : Z) :
  color565 (PyInt r) g b = Ok (pack565_spec r g b).
Proof. reflexivity. Qed.

Lemma color565_tuple (r g b g' b' : Z) :
  color565 (PyTuple [r; g; b]) g' b' = color565 (PyInt r) g b.
Proof. reflexivity. Qed.

Lemma red_field_range (r : Z) : 0 <= Z.shiftl (Z.land r 0xf8) 8 < 65536.
Proof.
  pose proof (land_mask_range r 0xf8 ltac:(lia)).
  rewrite Z.shiftl_mul_pow2 by lia. change (2 ^ 8) with 256. lia.
Qed.

Lemma green_field_range (g : Z) : 0 <= Z.shiftl (Z.land g 0xfc) 3 < 65536.
Proof.
  pose proof (land_mask_range g 0xfc ltac:(lia)).
  rewrite Z.shiftl_mul_pow2 by lia. change (2 ^ 3) with 8. lia.
Qed.

Lemma blue_field_range (b : Z) : 0 <= Z.shiftr b 3 < 65536 ↔ 0 <= b < 524288.
Proof.
  rewrite Z.shiftr_div_pow2 by lia. change (2 ^ 3) with 8.
  pose proof (Z.div_mod b 8 ltac:(lia)).
  pose proof (Z.mod_pos_bound b 8 ltac:(lia)). lia.
Qed.

Lemma pack565_range (r g b : Z) : fits16 (pack565_spec r g b) ↔ 0 <= b < 524288.
Proof.
  unfold fits16, pack565_spec. change 65536 with (2 ^ 16).
  rewrite !lor_range by lia. change (2 ^ 16) with 65536.
  rewrite blue_field_range.
  pose proof (red_field_range r). pose proof (green_field_range g).
  change 0xF8 with 0xf8. change 0xFC with 0xfc. tauto.
Qed.

(** ** Bit fields of the 565 value *)

Lemma land_shifted_ones (x k n : Z) :
  0 <= n →
  Z.land x (Z.shiftl (Z.ones k) n)
  = Z.shiftl (Z.land (Z.shiftr x n) (Z.ones k)) n.
Proof.
  intros Hn. apply Z.bits_inj'. intros i Hi.
  rewrite Z.land_spec, !Z.shiftl_spec, Z.land_spec by done.
  destruct (Z.lt_ge_cases i n) as [Hlt | Hge].
  - rewrite !(Z.testbit_neg_r _ (i - n)) by lia. by rewrite andb_false_r.
  - rewrite Z.shiftr_spec by lia. by replace (i - n + n) with i by lia.
Qed.

Lemma lor_shiftl_low (hi lo n : Z) :
  0 <= n → 0 <= lo < 2 ^ n → Z.lor (Z.shiftl hi n) lo = hi * 2 ^ n + lo.
Proof.
  intros Hn Hlo. rewrite <- Z.shiftl_mul_pow2 by done.
  symmetry. apply Z.add_nocarry_lor.
  apply Z.bits_inj'. intros i Hi. rewrite Z.land_spec, Z.bits_0.
  destruct (Z.lt_ge_cases i n) as [Hlt | Hge].
  - by rewrite Z.shiftl_spec_low.
  - destruct (decide (lo = 0)) as [-> | Hne].
    + by rewrite Z.bits_0, andb_false_r.
    + rewrite (Z.bits_above_log2 lo i); [by rewrite andb_false_r | lia |].
      assert (Z.log2 lo < n) by (apply Z.log2_lt_pow2; lia). lia.
Qed.

(** Bits 15..11 hold the top five bits of red, bits 10..5 the top six of
    green, bits 4..0 the top five of blue: truncation, no rounding. *)
Lemma pack565_fields (r g b : Z) :
  0 <= b <= 255 →
  pack565_spec r g b
  = 2048 * ((r `div` 8) `mod` 32) + 32 * ((g `div` 4) `mod` 64) + b `div` 8.
Proof.
  intros Hb. unfold pack565_spec.
  change 0xF8 with (Z.shiftl (Z.ones 5) 3).
  change 0xFC with (Z.shiftl (Z.ones 6) 2).
  rewrite !land_shifted_ones by lia.
  rewrite !Z.land_ones, !Z.shiftr_div_pow2 by lia.
  change (2 ^ 3) with 8. change (2 ^ 2) with 4.
  change (2 ^ 5) with 32. change (2 ^ 6) with 64.
  set (R := (r `div` 8) `mod` 32). set (G := (g `div` 4) `mod` 64).
  assert (HR : 0 <= R < 32) by (apply Z.mod_pos_bound; lia).
  assert (HG : 0 <= G < 64) by (apply Z.mod_pos_bound; lia).
  assert (HB : 0 <= b `div` 8 < 32).
  { pose proof (Z.div_mod b 8 ltac:(lia)).
    pose proof (Z.mod_pos_bound b 8 ltac:(lia)). lia. }
  rewrite !Z.shiftl_shiftl by lia.
  change (3 + 8) with 11. change (2 + 3) with 5.
  rewrite (Z.shiftl_mul_pow2 G) by lia. change (2 ^ 5) with 32.
  rewrite (lor_shiftl_low R (G * 32) 11) by (change (2 ^ 11) with 2048; lia).
  change (2 ^ 11) with 2048.
  replace (R * 2048 + G * 32) with (Z.shiftl (R * 64 + G) 5)
    by (rewrite Z.shiftl_mul_pow2 by lia; change (2 ^ 5) with 32; lia).
  rewrite lor_shiftl_low by (change (2 ^ 5) with 32; lia).
  change (2 ^ 5) with 32. lia.
Qed.

(** ** Running bus programs *)

Lemma run_bind {S A B : Type} (T : BusTransport S) (m : io A) (f : A → io B)
    (s : S) :
  run T (m ≫= f) s =
  match run T m s with
  | (Ok a, s') => run T (f a) s'
  | (Err e, s') => (Err e, s')
  end.
Proof.
  revert s. induction m as [a | e | c d k IH | c n k IH]; intros s; simpl.
  - reflexivity.
  - reflexivity.
  - destruct (bus_write T c d s) as [[[] | e] s']; [apply IH | reflexivity].
  - destruct (bus_read T c n s) as [[data | e] s']; [apply IH | reflexivity].
Qed.

Lemma run_lift {S A B : Type} (T : BusTransport S) (r : result A)
    (f : A → io B) (s : S) :
  run T (lift r ≫= f) s =
  match r with Ok a => run T (f a) s | Err e => (Err e, s) end.
Proof. by destruct r. Qed.

(** A program that makes no call leaves every link as it found it. *)
Lemma run_Ret {S A : Type} (T : BusTransport S) (a : A) (s : S) :
  run T (Ret a) s = (Ok a, s).
Proof. reflexivity. Qed.

(** ** Wire formats *)

Lemma encode_pos_Ok (a b : Z) :
  0 <= a <= 65535 → 0 <= b <= 65535 →
  _encode_pos a b = Ok [a `div` 256; a `mod` 256; b `div` 256; b `mod` 256].
Proof.
  intros Ha Hb. unfold _encode_pos, _ENCODE_POS. simpl.
  rewrite !bool_decide_eq_true_2 by done. reflexivity.
Qed.

Lemma encode_pos_Err (a b : Z) :
  ¬ (0 <= a <= 65535 ∧ 0 <= b <= 65535) → _encode_pos a b = Err struct_error.
Proof.
  intros Hn. unfold _encode_pos, _ENCODE_POS. simpl.
  destruct (decide (0 <= a <= 65535)) as [Ha | Ha].
  - rewrite (bool_decide_eq_true_2 _ Ha). simpl.
    rewrite bool_decide_eq_false_2 by tauto. reflexivity.
  - rewrite (bool_decide_eq_false_2 _ Ha). reflexivity.
Qed.

Lemma encode_pixel_Ok (color : Z) :
  0 <= color <= 65535 →
  _encode_pixel color = Ok [color `div` 256; color `mod` 256].
Proof.
  intros Hc. unfold _encode_pixel, _ENCODE_PIXEL. simpl.
  rewrite bool_decide_eq_true_2 by done. reflexivity.
Qed.

Lemma decode_pixel_three (r g b : Z) :
  _decode_pixel (Some [r; g; b]) = Ok (pack565_spec r g b).
Proof. reflexivity. Qed.

Lemma pack_Err (fmt : list struct.code) (vals : list Z) (e : exn) :
  struct.pack fmt vals = Err e → e = struct_error.
Proof.
  revert vals. induction fmt as [| c fmt IH]; intros [| v vals]; simpl;
    try (by intros [= <-]).
  destruct (struct.pack_code c v) as [b | e'] eqn:Hc; simpl.
  - destruct (struct.pack fmt vals) as [rest | e'] eqn:Hrest; simpl;
      [discriminate |].
    intros [= <-]. by eapply IH.
  - intros [= <-]. revert Hc. unfold struct.pack_code.
    by destruct c; case_bool_decide; intros [= <-].
Qed.

(** ** Initialisation and the SPI link *)

(** [init] replays the pairs of [_INIT], in order. *)
Lemma init_run (panel : list call → Z → bytes) (self : Display)
    (log : list call) :
  run (Recorder panel) (init self) log = (Ok tt, log ++ init_calls self).
Proof.
  unfold init, init_calls. revert log.
  induction (_INIT self) as [| [command data] rest IH]; intros log; simpl.
  - by rewrite (right_id_L [] (++)).
  - rewrite IH. by rewrite <- (assoc_L (++)).
Qed.

(** The three buffer sizes the module can pick are usable chunk sizes. *)
Lemma buffer_size_of_pos (p : platform) :
  (∀ n, p = CPython_FT232H n → 2 <= n) → 0 < buffer_size_of p.
Proof.
  destruct p as [| n |]; simpl; intros Hn; [lia | | lia].
  specialize (Hn n eq_refl).
  pose proof (Z.div_mod n 2 ltac:(lia)).
  pose proof (Z.mod_pos_bound n 2 ltac:(lia)). lia.
Qed.

(** A command with data goes out as two transfers: the command byte with the
    data/command pin low, then the data with the pin high. *)
Lemma DisplaySPI_write_wire (c : Z) (d : bytes) (s : spi_link) :
  0 <= c < 256 →
  DisplaySPI_write (Some c) (Some d) s
  = (Ok tt,
     {| dc_pin := 1;
        wire := wire s ++ [spi_write 0 [c]; spi_write 1 d];
        miso := miso s |}).
Proof.
  intros Hc. unfold DisplaySPI_write, send_command, command_byte.
  rewrite bool_decide_eq_true_2 by done. unfold do_spi_write, set_dc. simpl.
  by rewrite <- (assoc_L (++)).
Qed.

(** Data without a command goes out as one transfer with the pin high. *)
Lemma DisplaySPI_write_data (d : bytes) (s : spi_link) :
  DisplaySPI_write None (Some d) s
  = (Ok tt,
     {| dc_pin := 1; wire := wire s ++ [spi_write 1 d]; miso := miso s |}).
Proof. reflexivity. Qed.

(** ** The address window *)

Section Windowing.

Variable panel : list call → Z → bytes.
Variable self : Display.

Lemma block_write_run (x0 y0 x1 y1 : Z) (data cols rows : bytes)
    (log : list call) :
  _encode_pos (x0 + _X_START self) (x1 + _X_START self) = Ok cols →
  _encode_pos (y0 + _Y_START self) (y1 + _Y_START self) = Ok rows →
  run (Recorder panel) (_block self x0 y0 x1 y1 (Some data)) log =
  (Ok None,
   log ++ window_calls self cols rows (CWrite (_RAM_WRITE self) (Some data))).
Proof.
  intros Hc Hr. unfold _block. rewrite Hc. simpl. rewrite Hr. simpl.
  by rewrite <- !(assoc_L (++)).
Qed.

Lemma block_read_run (x0 y0 x1 y1 : Z) (cols rows : bytes)
    (log : list call) :
  _encode_pos (x0 + _X_START self) (x1 + _X_START self) = Ok cols →
  _encode_pos (y0 + _Y_START self) (y1 + _Y_START self) = Ok rows →
  let count := (x1 - x0 + 1) * (y1 - y0 + 1) * 3 in
  let seen := log ++ [CWrite (_COLUMN_SET self) (Some cols);
                      CWrite (_PAGE_SET self) (Some rows)] in
  run (Recorder panel) (_block self x0 y0 x1 y1 None) log =
  (Ok (Some (panel seen count)),
   log ++ window_calls self cols rows (CRead (_RAM_READ self) count)).
Proof.
  intros Hc Hr. unfold _block. rewrite Hc. simpl. rewrite Hr. simpl.
  by rewrite <- !(assoc_L (++)).
Qed.

(** The read path of [pixel]: one 1x1 window, one read of 3 bytes, and the
    value is whatever those bytes decode to. *)
Lemma pixel_read_run (x y : Z) (cols rows : bytes) (log : list call) :
  _encode_pos (x + _X_START self) (x + _X_START self) = Ok cols →
  _encode_pos (y + _Y_START self) (y + _Y_START self) = Ok rows →
  let seen := log ++ [CWrite (_COLUMN_SET self) (Some cols);
                      CWrite (_PAGE_SET self) (Some rows)] in
  run (Recorder panel) (pixel self x y None) log =
  (PyInt <$> _decode_pixel (Some (panel seen 3)),
   log ++ window_calls self cols rows (CRead (_RAM_READ self) 3)).
Proof.
  intros Hc Hr. unfold pixel. rewrite run_bind.
  rewrite (block_read_run _ _ _ _ _ _ _ Hc Hr).
  replace ((x - x + 1) * (y - y + 1) * 3) with 3 by lia.
  rewrite run_lift. by destruct (_decode_pixel _).
Qed.

Lemma pixel_write_run (x y color : Z) (cols rows px : bytes)
    (log : list call) :
  0 <= x < width self → 0 <= y < height self →
  _encode_pos (x + _X_START self) (x + _X_START self) = Ok cols →
  _encode_pos (y + _Y_START self) (y + _Y_START self) = Ok rows →
  _encode_pixel color = Ok px →
  run (Recorder panel) (pixel self x y (Some color)) log =
  (Ok PyNone,
   log ++ window_calls self cols rows (CWrite (_RAM_WRITE self) (Some px))).
Proof.
  intros Hx Hy Hc Hr Hp. unfold pixel.
  rewrite bool_decide_eq_true_2 by done.
  rewrite Hp. simpl. rewrite run_bind.
  by rewrite (block_write_run _ _ _ _ _ _ _ _ Hc Hr).
Qed.

End Windowing.

(** What the read path does when a coordinate cannot be encoded: it raises,
    and the column-set call is only made when the column pair encodes. *)
Lemma pixel_read_unencodable_x (panel : list call → Z → bytes)
    (self : Display) (x y : Z) (log : list call) :
  ¬ (0 <= x + _X_START self <= 65535) →
  run (Recorder panel) (pixel self x y None) log = (Err struct_error, log).
Proof.
  intros Hx. unfold pixel, _block.
  rewrite (encode_pos_Err (x + _X_START self) (x + _X_START self));
    [reflexivity |].
  intros [H _]. exact (Hx H).
Qed.

(** ** Repeated pixel patterns *)

Lemma bytes_mul_add (px : bytes) (a b : Z) :
  0 <= a → 0 <= b → bytes_mul px (a + b) = bytes_mul px a ++ bytes_mul px b.
Proof.
  intros Ha Hb. unfold bytes_mul.
  rewrite Z2Nat.inj_add by done.
  induction (Z.to_nat a) as [| k IH]; simpl; [done |].
  by rewrite IH, (assoc_L (++)).
Qed.

Lemma bytes_mul_chunks (px : bytes) (k : nat) (b : Z) :
  0 <= b →
  concat (replicate k (bytes_mul px b)) = bytes_mul px (Z.of_nat k * b).
Proof.
  intros Hb. induction k as [| k IH]; simpl.
  - reflexivity.
  - rewrite IH. rewrite <- bytes_mul_add by lia. f_equal. lia.
Qed.

Lemma data_bytes_app (cs cs' : list call) :
  data_bytes (cs ++ cs') = data_bytes cs ++ data_bytes cs'.
Proof. unfold data_bytes. by rewrite fmap_app, concat_app. Qed.

Lemma data_bytes_replicate (k : nat) (c : option Z) (d : bytes) :
  data_bytes (replicate k (CWrite c (Some d))) = concat (replicate k d).
Proof. unfold data_bytes. by rewrite fmap_replicate. Qed.

Lemma data_bytes_chunk_calls (px : bytes) (size n : Z) :
  0 < size → 0 <= n → data_bytes (chunk_calls px size n) = bytes_mul px n.
Proof.
  intros Hs Hn. unfold chunk_calls.
  rewrite data_bytes_app, data_bytes_replicate.
  rewrite bytes_mul_chunks by lia.
  assert (0 <= n `div` size) by (apply Z.div_pos; lia).
  pose proof (Z.mod_pos_bound n size Hs).
  unfold data_bytes. simpl. rewrite (right_id_L [] (++)).
  rewrite <- bytes_mul_add by lia. f_equal.
  rewrite Z2Nat.id by done. pose proof (Z.div_mod n size). lia.
Qed.

Lemma for_range_io_run (panel : list call → Z → bytes) (n : nat)
    (c : option Z) (d : option bytes) (log : list call) :
  run (Recorder panel) (for_range_io n (write c d)) log =
  (Ok tt, log ++ replicate n (CWrite c d)).
Proof.
  revert log. induction n as [| n IH]; intros log; simpl.
  - by rewrite (right_id_L [] (++)).
  - rewrite IH. by rewrite <- (assoc_L (++)).
Qed.

(** ** Clamping *)

Lemma clamp_w_min (self : Display) (x w : Z) : 1 <= clamp_w self x w.
Proof. unfold clamp_w, clamp_x. lia. Qed.

Lemma clamp_h_min (self : Display) (y h : Z) : 1 <= clamp_h self y h.
Proof. unfold clamp_h, clamp_y. lia. Qed.

Lemma clamp_x_range (self : Display) (x : Z) :
  0 < width self → 0 <= clamp_x self x < width self.
Proof. unfold clamp_x. lia. Qed.

Lemma clamp_y_range (self : Display) (y : Z) :
  0 < height self → 0 <= clamp_y self y < height self.
Proof. unfold clamp_y. lia. Qed.

Lemma clamp_w_edge (self : Display) (x w : Z) :
  clamp_x self x + clamp_w self x w <= width self.
Proof. unfold clamp_w. lia. Qed.

Lemma clamp_h_edge (self : Display) (y h : Z) :
  clamp_y self y + clamp_h self y h <= height self.
Proof. unfold clamp_h. lia. Qed.

(** ** Rectangle fill *)

Section Fill.

Variable _BUFFER_SIZE : Z.
Variable panel : list call → Z → bytes.
Variable self : Display.

Lemma fill_rectangle_window (x y w h color : Z) (cols rows : bytes)
    (log : list call) :
  let cx := clamp_x self x in
  let cy := clamp_y self y in
  let cw := clamp_w self x w in
  let ch := clamp_h self y h in
  _encode_pos (cx + _X_START self) (cx + cw - 1 + _X_START self) = Ok cols →
  _encode_pos (cy + _Y_START self) (cy + ch - 1 + _Y_START self) = Ok rows →
  run (Recorder panel) (fill_rectangle _BUFFER_SIZE self x y w h color) log =
  match divmod (cw * ch) _BUFFER_SIZE, _encode_pixel color with
  | Ok (chunks, rest), Ok px =>
      (Ok tt,
       log ++ window_calls self cols rows
                (CWrite (_RAM_WRITE self) (Some []))
           ++ replicate (Z.to_nat chunks)
                (CWrite None (Some (bytes_mul px _BUFFER_SIZE)))
           ++ [CWrite None (Some (bytes_mul px rest))])
  | Err e, _ | Ok _, Err e =>
      (Err e,
       log ++ window_calls self cols rows
                (CWrite (_RAM_WRITE self) (Some [])))
  end.
Proof.
  intros cx cy cw ch Hc Hr. unfold fill_rectangle.
  change (Z.min (width self - 1) (Z.max 0 x)) with cx.
  change (Z.min (height self - 1) (Z.max 0 y)) with cy.
  change (Z.min (width self - cx) (Z.max 1 w)) with cw.
  change (Z.min (height self - cy) (Z.max 1 h)) with ch.
  rewrite run_bind, (block_write_run _ _ _ _ _ _ _ _ _ _ Hc Hr).
  rewrite run_lift.
  destruct (divmod (cw * ch) _BUFFER_SIZE) as [[chunks rest] | e]; [| done].
  rewrite run_lift.
  destruct (_encode_pixel color) as [px | e]; [| done].
  rewrite run_bind. case_bool_decide as Hz.
  - rewrite for_range_io_run. simpl. by rewrite <- !(assoc_L (++)).
  - assert (chunks = 0) as -> by lia. simpl. by rewrite <- !(assoc_L (++)).
Qed.

Lemma fill_rectangle_run (x y w h color : Z) (cols rows px : bytes)
    (log : list call) :
  let cx := clamp_x self x in
  let cy := clamp_y self y in
  let cw := clamp_w self x w in
  let ch := clamp_h self y h in
  0 < _BUFFER_SIZE →
  _encode_pos (cx + _X_START self) (cx + cw - 1 + _X_START self) = Ok cols →
  _encode_pos (cy + _Y_START self) (cy + ch - 1 + _Y_START self) = Ok rows →
  _encode_pixel color = Ok px →
  run (Recorder panel) (fill_rectangle _BUFFER_SIZE self x y w h color) log =
  (Ok tt,
   log ++ window_calls self cols rows (CWrite (_RAM_WRITE self) (Some []))
       ++ chunk_calls px _BUFFER_SIZE (cw * ch)).
Proof.
  intros cx cy cw ch Hb Hc Hr Hp.
  rewrite (fill_rectangle_window _ _ _ _ _ _ _ _ Hc Hr).
  fold cw ch. rewrite Hp. unfold divmod.
  rewrite bool_decide_eq_false_2 by lia. reflexivity.
Qed.

Lemma fill_rectangle_unchunked_run (x y w h color : Z)
    (cols rows px : bytes) (log : list call) :
  let cx := clamp_x self x in
  let cy := clamp_y self y in
  let cw := clamp_w self x w in
  let ch := clamp_h self y h in
  _encode_pos (cx + _X_START self) (cx + cw - 1 + _X_START self) = Ok cols →
  _encode_pos (cy + _Y_START self) (cy + ch - 1 + _Y_START self) = Ok rows →
  _encode_pixel color = Ok px →
  run (Recorder panel) (fill_rectangle_unchunked self x y w h color) log =
  (Ok tt,
   log ++ window_calls self cols rows (CWrite (_RAM_WRITE self) (Some []))
       ++ [CWrite None (Some (bytes_mul px (cw * ch)))]).
Proof.
  intros cx cy cw ch Hc Hr Hp. unfold fill_rectangle_unchunked.
  change (Z.min (width self - 1) (Z.max 0 x)) with cx.
  change (Z.min (height self - 1) (Z.max 0 y)) with cy.
  change (Z.min (width self - cx) (Z.max 1 w)) with cw.
  change (Z.min (height self - cy) (Z.max 1 h)) with ch.
  rewrite run_bind, (block_write_run _ _ _ _ _ _ _ _ _ _ Hc Hr).
  rewrite run_lift, Hp. simpl. by rewrite <- !(assoc_L (++)).
Qed.

End Fill.

(** ** Image blit *)

Lemma validation_error_head (self : Display) (e : exn) :
  validation_error self e →
  ∃ c rest, e = ValueError (String c rest) ∧ (c = "I"%char ∨ c = "R"%char).
Proof. intros [| |]; eexists _, _; (split; [reflexivity | by auto]). Qed.

Lemma internal_not_validation (self : Display) (e : exn) :
  internal_error e → ¬ validation_error self e.
Proof.
  intros Hi Hv. apply validation_error_head in Hv as (c & rest & -> & Hc).
  simpl in Hi. destruct Hc as [-> | ->]; by destruct Hi as [? | [? | ?]].
Qed.

Lemma for_in_Err {S : Type} (P : exn → Prop) (body : Z → S → result S)
    (xs : list Z) (s : S) (e : exn) :
  (∀ i s e, body i s = Err e → P e) → for_in xs body s = Err e → P e.
Proof.
  intros Hbody. revert s. induction xs as [| i xs IH]; intros s; simpl.
  - discriminate.
  - destruct (body i s) as [s' | e'] eqn:Hb; simpl.
    + apply IH.
    + intros [= <-]. by eapply Hbody.
Qed.

Lemma color565_Err (p : pyval) (g b : Z) (e : exn) :
  color565 p g b = Err e → internal_error e.
Proof.
  destruct p as [| n | [| r [| g' [| b' [| a items]]]]]; simpl;
    intros [= <-]; simpl; auto.
Qed.

Lemma bytearray_setitem_Err (buf : bytes) (i v : Z) (e : exn) :
  bytearray_setitem buf i v = Err e → internal_error e.
Proof.
  unfold bytearray_setitem. repeat case_bool_decide; intros [= <-]; simpl; auto.
Qed.

Lemma image_store_Err (self : Display) (img : Image) (x y : Z)
    (pixels : bytes) (e : exn) :
  image_store self img x y pixels = Err e → internal_error e.
Proof.
  unfold image_store.
  destruct (color565 _ 0 0) as [pix | e'] eqn:Hpix; simpl.
  - destruct (bytearray_setitem pixels _ _) as [pixels' | e'] eqn:Hhi; simpl.
    + apply bytearray_setitem_Err.
    + intros [= <-]. by eapply bytearray_setitem_Err.
  - intros [= <-]. by eapply color565_Err.
Qed.

(** Once the argument checks have passed, whatever [image] raises before
    touching the bus comes from the codec, the buffer or [struct]. *)
Lemma image_body_Raise (self : Display) (img : Image) (e : exn) :
  (pixels ← lift (bytearray (width self * height self * 2));
   pixels ← lift (for_in (range (width self))
                    (λ x, for_in (range (height self))
                            (λ y, image_store self img x y))
                    pixels);
   _ ← _block self 0 0 (width self - 1) (height self - 1) (Some pixels);
   Ret tt) = Raise e →
  ¬ validation_error self e.
Proof.
  unfold bytearray. case_bool_decide; simpl.
  { intros [= <-]. apply internal_not_validation. simpl. auto. }
  destruct (for_in (range (width self)) _ _) as [pixels | e'] eqn:Hloop; simpl.
  - unfold _block.
    destruct (_encode_pos (0 + _X_START self) _) as [cols | e'] eqn:Henc;
      simpl; [discriminate |].
    apply pack_Err in Henc as ->. intros [= <-] Hv.
    by apply validation_error_head in Hv as (c & rest & Hv & _).
  - intros [= <-]. apply internal_not_validation.
    revert Hloop. apply for_in_Err. intros x s e.
    apply for_in_Err. intros y s' e''. apply image_store_Err.
Qed.

(** A loop over [range(n)] that keeps an invariant. *)
Lemma for_in_range_inv {St : Type} (I : Z → St → Prop)
    (body : Z → St → result St) (n : Z) (s : St) :
  0 <= n → I 0 s →
  (∀ i s, 0 <= i < n → I i s → ∃ s', body i s = Ok s' ∧ I (i + 1) s') →
  ∃ s', for_in (range n) body s = Ok s' ∧ I n s'.
Proof.
  intros Hn H0 Hstep. unfold range.
  assert (Hgen : ∀ (k : nat) (m : Z) (s : St),
            0 <= m → m + Z.of_nat k = n → I m s →
            ∃ s', for_in (seqZ m (Z.of_nat k)) body s = Ok s' ∧ I n s').
  { induction k as [| k IH]; intros m s0 Hm Hk Hs0.
    - exists s0. simpl. split; [done |]. by replace n with m by lia.
    - rewrite seqZ_cons by lia. simpl.
      destruct (Hstep m s0 ltac:(lia) Hs0) as (s1 & -> & Hs1). simpl.
      replace (Z.pred (Z.of_nat (S k))) with (Z.of_nat k) by lia.
      apply IH; [lia | lia |]. by replace (Z.succ m) with (m + 1) by lia. }
  destruct (Hgen (Z.to_nat n) 0 s ltac:(lia) ltac:(lia) H0) as (s' & Hs' & HI).
  exists s'. by rewrite Z2Nat.id in Hs' by done.
Qed.

Lemma pixel_offset_inj (W x y x' y' : Z) :
  0 <= x < W → 0 <= x' < W → 0 <= y → 0 <= y' →
  y' * W + x' = y * W + x → x' = x ∧ y' = y.
Proof.
  intros Hx Hx' Hy Hy' Heq.
  destruct (Z.lt_trichotomy y y') as [Hlt | [-> | Hgt]]; [nia | lia | nia].
Qed.

Lemma bytearray_setitem_Ok (buf : bytes) (i v : Z) :
  0 <= i < Z.of_nat (length buf) → 0 <= v < 256 →
  bytearray_setitem buf i v = Ok (<[Z.to_nat i := v]> buf).
Proof.
  intros Hi Hv. unfold bytearray_setitem.
  rewrite (bool_decide_eq_false_2 (i < 0)) by lia.
  by rewrite !bool_decide_eq_true_2 by lia.
Qed.

Section ImageBuffer.

Variable self : Display.
Variable img : Image.
Hypothesis Hsize : size img = (width self, height self).
Hypothesis Hrgb : rgb_pixels img.

Lemma pixel565_fits (x y : Z) :
  0 <= x < width self → 0 <= y < height self →
  color565 (getpixel img (x, y)) 0 0 = Ok (pixel565 img x y)
  ∧ fits16 (pixel565 img x y).
Proof.
  intros Hx Hy. unfold pixel565.
  destruct (Hrgb x y) as (r & g & b & -> & Hr & Hg & Hb).
  { by rewrite Hsize. } { by rewrite Hsize. }
  split; [reflexivity |]. apply pack565_range. lia.
Qed.

(** One turn of the double loop stores the two bytes of pixel (x, y). *)
Lemma image_store_Ok (x y : Z) (buf : bytes) :
  0 <= x < width self → 0 <= y < height self →
  Z.of_nat (length buf) = width self * height self * 2 →
  let i := Z.to_nat (2 * (y * width self + x)) in
  image_store self img x y buf
  = Ok (<[S i := Z.land (pixel565 img x y) 0xFF]>
          (<[i := Z.shiftr (pixel565 img x y) 8]> buf)).
Proof.
  intros Hx Hy Hlen i. unfold image_store.
  destruct (pixel565_fits x y Hx Hy) as [-> Hfit]. simpl.
  unfold fits16 in Hfit.
  assert (Hoff : 0 <= 2 * (y * width self + x)
                 ∧ 2 * (y * width self + x) + 1 < width self * height self * 2)
    by nia.
  assert (Hhi : 0 <= Z.shiftr (pixel565 img x y) 8 < 256).
  { rewrite Z.shiftr_div_pow2 by lia. change (2 ^ 8) with 256.
    pose proof (Z.div_mod (pixel565 img x y) 256 ltac:(lia)).
    pose proof (Z.mod_pos_bound (pixel565 img x y) 256 ltac:(lia)). lia. }
  pose proof (land_mask_range (pixel565 img x y) 0xFF ltac:(lia)) as Hlo.
  rewrite bytearray_setitem_Ok by lia. simpl.
  rewrite bytearray_setitem_Ok by (rewrite ?length_insert; lia).
  do 2 f_equal. subst i. lia.
Qed.

Lemma image_store_holds (x y : Z) (buf : bytes) :
  0 <= x < width self → 0 <= y < height self →
  Z.of_nat (length buf) = width self * height self * 2 →
  ∃ buf',
    image_store self img x y buf = Ok buf'
    ∧ length buf' = length buf
    ∧ holds_pixel self img buf' x y
    ∧ ∀ x' y', 0 <= x' < width self → 0 <= y' < height self →
        holds_pixel self img buf x' y' → holds_pixel self img buf' x' y'.
Proof.
  intros Hx Hy Hlen. eexists. split; [by apply image_store_Ok |].
  assert (Hoff : 0 <= 2 * (y * width self + x)
                 ∧ 2 * (y * width self + x) + 1 < width self * height self * 2)
    by nia.
  split; [by rewrite !length_insert |]. split.
  - unfold holds_pixel. split.
    + rewrite list_lookup_insert_ne by lia.
      apply list_lookup_insert_eq. lia.
    + replace (Z.to_nat (2 * (y * width self + x) + 1))
        with (S (Z.to_nat (2 * (y * width self + x)))) by lia.
      apply list_lookup_insert_eq. rewrite length_insert. lia.
  - intros x' y' Hx' Hy' [Hhi Hlo]. unfold holds_pixel in Hhi, Hlo |- *.
    destruct (decide (x' = x ∧ y' = y)) as [[-> ->] | Hne].
    + split.
      * rewrite list_lookup_insert_ne by lia.
        apply list_lookup_insert_eq. lia.
      * replace (Z.to_nat (2 * (y * width self + x) + 1))
          with (S (Z.to_nat (2 * (y * width self + x)))) by lia.
        apply list_lookup_insert_eq. rewrite length_insert. lia.
    + assert (y' * width self + x' ≠ y * width self + x).
      { intros Heq. apply Hne.
        apply (pixel_offset_inj (width self) x y x' y'); lia. }
      assert (0 <= y' * width self + x') by nia.
      split; (rewrite !list_lookup_insert_ne by lia; assumption).
Qed.

(** The double loop fills the whole buffer. *)
Lemma image_loops_Ok (buf : bytes) :
  0 <= width self → 0 <= height self →
  Z.of_nat (length buf) = width self * height self * 2 →
  ∃ buf',
    for_in (range (width self))
      (λ x, for_in (range (height self)) (λ y, image_store self img x y)) buf
    = Ok buf'
    ∧ length buf' = length buf
    ∧ ∀ x y, 0 <= x < width self → 0 <= y < height self →
        holds_pixel self img buf' x y.
Proof.
  intros HW HH Hlen.
  pose (outer := λ (x : Z) (b : bytes),
          length b = length buf
          ∧ ∀ x' y', 0 <= x' < x → 0 <= y' < height self →
              holds_pixel self img b x' y').
  destruct (for_in_range_inv outer
              (λ x, for_in (range (height self))
                      (λ y, image_store self img x y))
              (width self) buf HW) as (buf' & Hrun & Hlen' & Hall).
  - split; [done |]. intros; lia.
  - intros x b Hx [Hb Hdone].
    pose (inner := λ (y : Z) (b' : bytes),
            length b' = length buf
            ∧ ∀ x' y', 0 <= x' < width self → 0 <= y' < height self →
                x' < x ∨ (x' = x ∧ y' < y) →
                holds_pixel self img b' x' y').
    destruct (for_in_range_inv inner (λ y, image_store self img x y)
                (height self) b HH) as (b' & Hrun & Hb' & Hrow).
    + split; [done |]. intros x' y' Hx' Hy' [Hlt | [_ Hlt]]; [| lia].
      apply Hdone; lia.
    + intros y b0 Hy [Hb0 Hcells].
      destruct (image_store_holds x y b0 Hx Hy)
        as (b1 & -> & Hb1 & Hnew & Hkeep).
      { rewrite Hb0. exact Hlen. }
      exists b1. split; [done |]. split; [congruence |].
      intros x' y' Hx' Hy' Hcase.
      destruct (decide (x' = x ∧ y' = y)) as [[-> ->] | Hne]; [done |].
      apply Hkeep; [done | done |]. apply Hcells; [done | done | lia].
    + exists b'. split; [exact Hrun |]. split; [done |].
      intros x' y' Hx' Hy'. apply Hrow; lia.
  - exists buf'. split; [exact Hrun |]. split; [done |].
    intros x y Hx Hy. by apply Hall.
Qed.

End ImageBuffer.

(** For a source of three-channel pixels whose size after rotation is the
    panel's, [image] succeeds: one window over the whole panel and one RAM
    write of width * height * 2 bytes, in which pixel (x, y) sits big-endian
    at byte offset 2 * (y * width + x). *)
Lemma image_rgb_block (rotate : Image → Z → Image)
    (panel : list call → Z → bytes) (self : Display) (img : Image)
    (rotation : Z) (cols rows : bytes) (log : list call) :
  let src := rotated rotate img rotation in
  mode img = "RGB" ∨ mode img = "RGBA" →
  rotation = 0 ∨ rotation = 90 ∨ rotation = 180 ∨ rotation = 270 →
  size src = (width self, height self) →
  rgb_pixels src →
  0 <= width self → 0 <= height self →
  _encode_pos (0 + _X_START self) (width self - 1 + _X_START self) = Ok cols →
  _encode_pos (0 + _Y_START self) (height self - 1 + _Y_START self) = Ok rows →
  ∃ pixels,
    run (Recorder panel) (image rotate self img rotation) log
    = (Ok tt,
       log ++ [CWrite (_COLUMN_SET self) (Some cols);
               CWrite (_PAGE_SET self) (Some rows);
               CWrite (_RAM_WRITE self) (Some pixels)])
    ∧ Z.of_nat (length pixels) = width self * height self * 2
    ∧ ∀ x y, 0 <= x < width self → 0 <= y < height self →
        holds_pixel self src pixels x y.
Proof.
  intros src Hmode Hrot Hsize Hrgb HW HH Hc Hr.
  unfold image. fold (rotated rotate img rotation). fold src.
  rewrite bool_decide_eq_false_2.
  2: { intros Hn. rewrite !not_elem_of_cons in Hn. tauto. }
  rewrite bool_decide_eq_false_2.
  2: { intros Hn. rewrite !not_elem_of_cons in Hn. tauto. }
  rewrite Hsize. rewrite bool_decide_eq_false_2 by tauto.
  unfold bytearray. rewrite bool_decide_eq_false_2 by nia.
  rewrite run_lift.
  destruct (image_loops_Ok self src Hsize Hrgb
              (replicate (Z.to_nat (width self * height self * 2)) 0) HW HH)
    as (pixels & Hloop & Hlen & Hcells).
  { rewrite length_replicate. nia. }
  rewrite run_lift, Hloop. rewrite run_bind.
  rewrite (block_write_run _ _ _ _ _ _ _ _ _ _ Hc Hr).
  exists pixels. split; [reflexivity |]. split; [| exact Hcells].
  rewrite Hlen, length_replicate. nia.
Qed.

(** X17: a source whose first pixel has four channels, as PIL delivers them
    in mode RGBA, passes the argument checks and then makes [color565] raise,
    before anything is written. *)
Lemma image_rgba_raises (rotate : Image → Z → Image) (self : Display)
    (img : Image) (rotation r g b a : Z) (more : list Z) :
  let src := rotated rotate img rotation in
  mode img = "RGB" ∨ mode img = "RGBA" →
  rotation = 0 ∨ rotation = 90 ∨ rotation = 180 ∨ rotation = 270 →
  size src = (width self, height self) →
  0 < width self → 0 < height self →
  getpixel src (0, 0) = PyTuple (r :: g :: b :: a :: more) →
  image rotate self img rotation
  = Raise (ValueError "too many values to unpack (expected 3)").
Proof.
  intros src Hmode Hrot Hsize HW HH Hpix.
  unfold image. fold (rotated rotate img rotation). fold src.
  rewrite bool_decide_eq_false_2.
  2: { intros Hn. rewrite !not_elem_of_cons in Hn. tauto. }
  rewrite bool_decide_eq_false_2.
  2: { intros Hn. rewrite !not_elem_of_cons in Hn. tauto. }
  rewrite Hsize. rewrite bool_decide_eq_false_2 by tauto.
  unfold bytearray. rewrite bool_decide_eq_false_2 by nia.
  unfold range. rewrite (seqZ_cons 0 (width self)) by lia.
  rewrite (seqZ_cons 0 (height self)) by lia.
  simpl. unfold image_store. rewrite Hpix. reflexivity.
Qed.

(** * The claims *)

(** C1: for every colour that [_encode_pixel] encodes and every clamped
    rectangle of w x h pixels, [fill_rectangle] sends, after the window,
    [w*h div _BUFFER_SIZE] writes of a full buffer and one last write of the
    remainder (empty when the remainder is 0); their data concatenates to the
    encoded pixel repeated w*h times, which is byte for byte what one
    unchunked write sends, whether w*h is below or above the buffer size. *)
Theorem fill_rectangle_chunking_transparent (_BUFFER_SIZE : Z)
    (panel : list call → Z → bytes) (self : Display)
    (x y w h color : Z) (cols rows px : bytes) (log : list call) :
  let cx := clamp_x self x in
  let cy := clamp_y self y in
  let cw := clamp_w self x w in
  let ch := clamp_h self y h in
  let window :=
    [CWrite (_COLUMN_SET self) (Some cols);
     CWrite (_PAGE_SET self) (Some rows);
     CWrite (_RAM_WRITE self) (Some [])] in
  let chunked :=
    run (Recorder panel) (fill_rectangle _BUFFER_SIZE self x y w h color) log in
  let unchunked :=
    run (Recorder panel) (fill_rectangle_unchunked self x y w h color) log in
  0 < _BUFFER_SIZE →
  _encode_pos (cx + _X_START self) (cx + cw - 1 + _X_START self) = Ok cols →
  _encode_pos (cy + _Y_START self) (cy + ch - 1 + _Y_START self) = Ok rows →
  _encode_pixel color = Ok px →
  chunked =
    (Ok tt,
     log ++ window
         ++ replicate (Z.to_nat ((cw * ch) `div` _BUFFER_SIZE))
              (CWrite None (Some (bytes_mul px _BUFFER_SIZE)))
         ++ [CWrite None (Some (bytes_mul px ((cw * ch) `mod` _BUFFER_SIZE)))])
  ∧ unchunked =
    (Ok tt, log ++ window ++ [CWrite None (Some (bytes_mul px (cw * ch)))])
  ∧ data_bytes (drop (length log + 2) chunked.2) = bytes_mul px (cw * ch)
  ∧ data_bytes chunked.2 = data_bytes unchunked.2.
Proof.
  intros cx cy cw ch window chunked unchunked Hb Hc Hr Hp.
  pose proof (fill_rectangle_run _BUFFER_SIZE panel self x y w h color
                cols rows px log Hb Hc Hr Hp) as Hrun.
  pose proof (fill_rectangle_unchunked_run panel self x y w h color
                cols rows px log Hc Hr Hp) as Hun.
  fold cx cy cw ch in Hrun, Hun. fold chunked in Hrun. fold unchunked in Hun.
  assert (Hn : 0 <= cw * ch).
  { pose proof (clamp_w_min self x w). pose proof (clamp_h_min self y h).
    subst cw ch. nia. }
  split; [exact Hrun |]. split; [exact Hun |].
  rewrite Hrun, Hun. cbn [snd]. split.
  - rewrite drop_app_add.
    transitivity (data_bytes (chunk_calls px _BUFFER_SIZE (cw * ch)));
      [reflexivity | by apply data_bytes_chunk_calls].
  - rewrite !data_bytes_app, data_bytes_chunk_calls by done.
    do 2 f_equal. unfold data_bytes. simpl. by rewrite (right_id_L [] (++)).
Qed.

(** Nine pixels through a buffer of four (two full writes and a remainder of
    one), then through a buffer of sixteen (no full write): the same bytes. *)
Lemma fill_rectangle_chunking_transparent_witness :
  run (Recorder (answering []))
      (fill_rectangle 4 (panel_of 3 3 0 0) 0 0 3 3 0xF800) []
    = (Ok tt,
       [CWrite (Some 0x2A) (Some [0; 0; 0; 2]);
        CWrite (Some 0x2B) (Some [0; 0; 0; 2]);
        CWrite (Some 0x2C) (Some []);
        CWrite None (Some [248; 0; 248; 0; 248; 0; 248; 0]);
        CWrite None (Some [248; 0; 248; 0; 248; 0; 248; 0]);
        CWrite None (Some [248; 0])])
  ∧ data_bytes
      (run (Recorder (answering []))
           (fill_rectangle 4 (panel_of 3 3 0 0) 0 0 3 3 0xF800) []).2
    = data_bytes
        (run (Recorder (answering []))
             (fill_rectangle_unchunked (panel_of 3 3 0 0) 0 0 3 3 0xF800) []).2
  ∧ run (Recorder (answering []))
        (fill_rectangle 16 (panel_of 3 3 0 0) 0 0 3 3 0xF800) []
    = (Ok tt,
       [CWrite (Some 0x2A) (Some [0; 0; 0; 2]);
        CWrite (Some 0x2B) (Some [0; 0; 0; 2]);
        CWrite (Some 0x2C) (Some []);
        CWrite None (Some (bytes_mul [248; 0] 9))]).
Proof.
  destruct (fill_rectangle_chunking_transparent 4 (answering [])
              (panel_of 3 3 0 0) 0 0 3 3 0xF800
              [0; 0; 0; 2] [0; 0; 0; 2] [248; 0] []
              ltac:(lia) eq_refl eq_refl eq_refl) as (Habove & _ & _ & Hsame).
  destruct (fill_rectangle_chunking_transparent 16 (answering [])
              (panel_of 3 3 0 0) 0 0 3 3 0xF800
              [0; 0; 0; 2] [0; 0; 0; 2] [248; 0] []
              ltac:(lia) eq_refl eq_refl eq_refl) as (Hbelow & _).
  split; [exact Habove |]. split; [exact Hsame | exact Hbelow].
Defined.

(** C2: every transfer made by [pixel] with a colour (in bounds), by [pixel]
    without a colour and by [fill_rectangle] opens with exactly one
    column-set call carrying [_encode_pos(x0 + _X_START, x1 + _X_START)],
    then exactly one page-set call carrying
    [_encode_pos(y0 + _Y_START, y1 + _Y_START)], immediately followed by the
    single RAM write or RAM read call; whatever [fill_rectangle] sends
    afterwards is data without a command. *)
Theorem window_precedes_transfer (_BUFFER_SIZE : Z)
    (panel : list call → Z → bytes) (self : Display) :
  (∀ x y color cols rows px log,
     0 <= x < width self → 0 <= y < height self →
     _encode_pos (x + _X_START self) (x + _X_START self) = Ok cols →
     _encode_pos (y + _Y_START self) (y + _Y_START self) = Ok rows →
     _encode_pixel color = Ok px →
     run (Recorder panel) (pixel self x y (Some color)) log =
     (Ok PyNone,
      log ++ [CWrite (_COLUMN_SET self) (Some cols);
              CWrite (_PAGE_SET self) (Some rows);
              CWrite (_RAM_WRITE self) (Some px)]))
  ∧ (∀ x y cols rows log,
       _encode_pos (x + _X_START self) (x + _X_START self) = Ok cols →
       _encode_pos (y + _Y_START self) (y + _Y_START self) = Ok rows →
       (run (Recorder panel) (pixel self x y None) log).2 =
       log ++ [CWrite (_COLUMN_SET self) (Some cols);
               CWrite (_PAGE_SET self) (Some rows);
               CRead (_RAM_READ self) 3])
  ∧ (∀ x y w h color cols rows log,
       let cx := clamp_x self x in
       let cy := clamp_y self y in
       let cw := clamp_w self x w in
       let ch := clamp_h self y h in
       _encode_pos (cx + _X_START self) (cx + cw - 1 + _X_START self)
         = Ok cols →
       _encode_pos (cy + _Y_START self) (cy + ch - 1 + _Y_START self)
         = Ok rows →
       ∃ tail,
         (run (Recorder panel)
              (fill_rectangle _BUFFER_SIZE self x y w h color) log).2 =
         log ++ [CWrite (_COLUMN_SET self) (Some cols);
                 CWrite (_PAGE_SET self) (Some rows);
                 CWrite (_RAM_WRITE self) (Some [])] ++ tail
         ∧ Forall (λ c, ∃ d, c = CWrite None (Some d)) tail).
Proof.
  split; [| split].
  - intros x y color cols rows px log Hx Hy Hc Hr Hp.
    by apply pixel_write_run.
  - intros x y cols rows log Hc Hr.
    by rewrite (pixel_read_run _ _ _ _ _ _ _ Hc Hr).
  - intros x y w h color cols rows log cx cy cw ch Hc Hr.
    rewrite (fill_rectangle_window _ _ _ _ _ _ _ _ _ _ _ Hc Hr).
    fold cw ch.
    destruct (divmod (cw * ch) _BUFFER_SIZE) as [[chunks rest] | e].
    + destruct (_encode_pixel color) as [px | e].
      * eexists. split; [reflexivity |].
        apply Forall_app. split; [| by repeat constructor; eexists].
        apply Forall_replicate. by eexists.
      * exists []. split; [reflexivity | constructor].
    + exists []. split; [reflexivity | constructor].
Qed.

Lemma window_precedes_transfer_witness :
  run (Recorder (answering [])) (pixel (panel_of 2 2 2 3) 1 0 (Some 0xF800)) []
    = (Ok PyNone,
       [CWrite (Some 0x2A) (Some [0; 3; 0; 3]);
        CWrite (Some 0x2B) (Some [0; 3; 0; 3]);
        CWrite (Some 0x2C) (Some [248; 0])])
  ∧ (run (Recorder (answering [1; 2; 3])) (pixel (panel_of 2 2 2 3) 1 0 None)
         []).2
    = [CWrite (Some 0x2A) (Some [0; 3; 0; 3]);
       CWrite (Some 0x2B) (Some [0; 3; 0; 3]);
       CRead (Some 0x2E) 3]
  ∧ ∃ tail,
      (run (Recorder (answering []))
           (fill_rectangle 256 (panel_of 2 2 2 3) (-4) 1 9 9 0xF800) []).2
      = [CWrite (Some 0x2A) (Some [0; 2; 0; 3]);
         CWrite (Some 0x2B) (Some [0; 4; 0; 4]);
         CWrite (Some 0x2C) (Some [])] ++ tail
      ∧ Forall (λ c, ∃ d, c = CWrite None (Some d)) tail.
Proof.
  destruct (window_precedes_transfer 256 (answering []) (panel_of 2 2 2 3))
    as (Hwrite & _ & Hfill).
  destruct (window_precedes_transfer 256 (answering [1; 2; 3])
              (panel_of 2 2 2 3)) as (_ & Hread & _).
  split; [| split].
  - apply (Hwrite 1 0 0xF800 [0; 3; 0; 3] [0; 3; 0; 3] [248; 0] []);
      simpl; try lia; reflexivity.
  - apply (Hread 1 0 [0; 3; 0; 3] [0; 3; 0; 3] []); reflexivity.
  - apply (Hfill (-4) 1 9 9 0xF800 [0; 2; 0; 3] [0; 4; 0; 4] []); reflexivity.
Defined.

(** C3: on a panel of positive size whose offset window is addressable in 16
    bits, for every x, y, width, height (negative and oversized included)
    [fill_rectangle] opens a window whose origin lies in
    [0, width) x [0, height), whose width and height are at least 1 and
    which does not pass the panel edge, and then streams exactly
    clamped_width * clamped_height encoded pixels. *)
Theorem fill_rectangle_clamps (_BUFFER_SIZE : Z)
    (panel : list call → Z → bytes) (self : Display)
    (x y w h color : Z) (log : list call) :
  let cx := clamp_x self x in
  let cy := clamp_y self y in
  let cw := clamp_w self x w in
  let ch := clamp_h self y h in
  0 < _BUFFER_SIZE →
  0 < width self → 0 < height self →
  0 <= _X_START self → width self + _X_START self <= 65536 →
  0 <= _Y_START self → height self + _Y_START self <= 65536 →
  0 <= color <= 65535 →
  (0 <= cx < width self ∧ 0 <= cy < height self)
  ∧ (1 <= cw ∧ 1 <= ch)
  ∧ (cx + cw <= width self ∧ cy + ch <= height self)
  ∧ ∃ cols rows px tail,
      _encode_pos (cx + _X_START self) (cx + cw - 1 + _X_START self) = Ok cols
      ∧ _encode_pos (cy + _Y_START self) (cy + ch - 1 + _Y_START self)
        = Ok rows
      ∧ _encode_pixel color = Ok px
      ∧ run (Recorder panel)
            (fill_rectangle _BUFFER_SIZE self x y w h color) log
        = (Ok tt,
           log ++ [CWrite (_COLUMN_SET self) (Some cols);
                   CWrite (_PAGE_SET self) (Some rows);
                   CWrite (_RAM_WRITE self) (Some [])] ++ tail)
      ∧ Forall (λ c, ∃ d, c = CWrite None (Some d)) tail
      ∧ data_bytes tail = bytes_mul px (cw * ch).
Proof.
  intros cx cy cw ch Hb Hw Hh Hx0 Hx1 Hy0 Hy1 Hcol.
  pose proof (clamp_x_range self x Hw) as Hcx.
  pose proof (clamp_y_range self y Hh) as Hcy.
  pose proof (clamp_w_min self x w) as Hcw.
  pose proof (clamp_h_min self y h) as Hch.
  pose proof (clamp_w_edge self x w) as Hex.
  pose proof (clamp_h_edge self y h) as Hey.
  fold cx in Hcx, Hex. fold cy in Hcy, Hey. fold cw in Hcw, Hex.
  fold ch in Hch, Hey.
  repeat split; try lia.
  eexists _, _, _, (chunk_calls _ _BUFFER_SIZE (cw * ch)).
  split; [apply encode_pos_Ok; lia |].
  split; [apply encode_pos_Ok; lia |].
  split; [by apply encode_pixel_Ok |].
  split; [| split].
  - apply fill_rectangle_run; [done | | |].
    + apply encode_pos_Ok; fold cx cw; lia.
    + apply encode_pos_Ok; fold cy ch; lia.
    + by apply encode_pixel_Ok.
  - apply Forall_app. split; [| by repeat constructor; eexists].
    apply Forall_replicate. by eexists.
  - apply data_bytes_chunk_calls; [done | nia].
Qed.

Lemma fill_rectangle_clamps_witness :
  ∃ tail,
    run (Recorder (answering []))
        (fill_rectangle 256 (panel_of 4 3 0 0) (-5) 7 100 (-2) 0x07E0) []
    = (Ok tt,
       [CWrite (Some 0x2A) (Some [0; 0; 0; 3]);
        CWrite (Some 0x2B) (Some [0; 2; 0; 2]);
        CWrite (Some 0x2C) (Some [])] ++ tail)
    ∧ data_bytes tail = bytes_mul [7; 224] 4.
Proof.
  destruct (fill_rectangle_clamps 256 (answering []) (panel_of 4 3 0 0)
              (-5) 7 100 (-2) 0x07E0 []
              ltac:(lia) ltac:(simpl; lia) ltac:(simpl; lia)
              ltac:(simpl; lia) ltac:(simpl; lia)
              ltac:(simpl; lia) ltac:(simpl; lia) ltac:(lia))
    as (_ & _ & _ & cols & rows & px & tail & Hc & Hr & Hp & Hrun & _ & Hdata).
  exists tail.
  assert (cols = [0; 0; 0; 3]) as -> by (vm_compute in Hc; congruence).
  assert (rows = [0; 2; 0; 2]) as -> by (vm_compute in Hr; congruence).
  assert (px = [7; 224]) as -> by (vm_compute in Hp; congruence).
  split; [exact Hrun | exact Hdata].
Defined.

(** C4: for every r, g, b, [color565] returns
    [(r & 0xF8) << 8 | (g & 0xFC) << 3 | (b >> 3)], and a 3-sequence passed
    as the first argument gives the same value as the three channels passed
    separately (whatever the other two arguments are, 0 by default). *)
Theorem color565_formula (r g b : Z) :
  color565 (PyInt r) g b = Ok (pack565_spec r g b)
  ∧ color565 (PyTuple [r; g; b]) 0 0 = color565 (PyInt r) g b
  ∧ ∀ g' b', color565 (PyTuple [r; g; b]) g' b' = color565 (PyInt r) g b.
Proof.
  split; [apply color565_int |].
  split; [apply color565_tuple |]. intros g' b'. apply color565_tuple.
Qed.

(** C5, as the code has it: for every (x, y) whose offset coordinates fit
    the position format (every in-bounds pixel of an addressable panel),
    [pixel(x, y)] sets the 1x1 window at (x, y), issues one RAM read of
    exactly 3 bytes and returns [color565(r, g, b)] of the bytes read: one
    packed 16-bit integer, not a triple.  When the panel answers (248, 0, 0)
    the value is 0xF800. *)
Theorem pixel_read_decodes (panel : list call → Z → bytes) (self : Display)
    (x y r g b : Z) (cols rows : bytes) (log : list call) :
  _encode_pos (x + _X_START self) (x + _X_START self) = Ok cols →
  _encode_pos (y + _Y_START self) (y + _Y_START self) = Ok rows →
  panel (log ++ [CWrite (_COLUMN_SET self) (Some cols);
                 CWrite (_PAGE_SET self) (Some rows)]) 3 = [r; g; b] →
  struct.calcsize _DECODE_PIXEL = 3
  ∧ run (Recorder panel) (pixel self x y None) log
    = (Ok (PyInt (pack565_spec r g b)),
       log ++ [CWrite (_COLUMN_SET self) (Some cols);
               CWrite (_PAGE_SET self) (Some rows);
               CRead (_RAM_READ self) 3]).
Proof.
  intros Hc Hr Hans. split; [reflexivity |].
  rewrite (pixel_read_run panel self x y cols rows log Hc Hr).
  cbn zeta. rewrite Hans. reflexivity.
Qed.

(** The 2x2 panel filled with pure red and read back at (1, 1). *)
Lemma pixel_read_decodes_witness :
  run (Recorder red_panel) (pixel (panel_of 2 2 0 0) 1 1 None) red_fill_log
  = (Ok (PyInt 0xF800),
     red_fill_log ++ [CWrite (Some 0x2A) (Some [0; 1; 0; 1]);
                      CWrite (Some 0x2B) (Some [0; 1; 0; 1]);
                      CRead (Some 0x2E) 3]).
Proof.
  apply (pixel_read_decodes red_panel (panel_of 2 2 0 0) 1 1 248 0 0
           [0; 1; 0; 1] [0; 1; 0; 1] red_fill_log); reflexivity.
Defined.

(** C5 as stated fails: the read returns the integer 0xF800 = 63488, not the
    triple (248, 0, 0). *)
Lemma pixel_read_not_a_triple :
  (run (Recorder red_panel) red_fill_then_read []).1 = Ok (PyInt 63488)
  ∧ (run (Recorder red_panel) red_fill_then_read []).1
    ≠ Ok (PyTuple [248; 0; 0]).
Proof. split; [reflexivity | discriminate]. Qed.

(** C6: for every (x, y) outside [0, width) x [0, height) and every colour,
    [pixel(x, y, color)] makes no transport call at all, so nothing reaches
    the bus, and returns [None] without raising. *)
Theorem pixel_write_out_of_bounds (self : Display) (x y color : Z) :
  ¬ (0 <= x < width self ∧ 0 <= y < height self) →
  pixel self x y (Some color) = Ret PyNone
  ∧ (∀ panel log,
       run (Recorder panel) (pixel self x y (Some color)) log
       = (Ok PyNone, log))
  ∧ (∀ link,
       run DisplaySPI (pixel self x y (Some color)) link = (Ok PyNone, link)).
Proof.
  intros Hout.
  assert (pixel self x y (Some color) = Ret PyNone) as ->.
  { unfold pixel. by rewrite bool_decide_eq_false_2. }
  by repeat split.
Qed.

Lemma pixel_write_out_of_bounds_witness :
  run DisplaySPI (pixel (panel_of 2 2 0 0) (-1) 0 (Some 0xF800)) idle_link
    = (Ok PyNone, idle_link)
  ∧ run DisplaySPI (pixel (panel_of 2 2 0 0) 2 0 (Some 0xF800)) idle_link
    = (Ok PyNone, idle_link).
Proof.
  split.
  - apply (pixel_write_out_of_bounds (panel_of 2 2 0 0) (-1) 0 0xF800).
    simpl. lia.
  - apply (pixel_write_out_of_bounds (panel_of 2 2 0 0) 2 0 0xF800).
    simpl. lia.
Defined.

(** C7: [image] raises one of its validation errors exactly when the mode is
    neither RGB nor RGBA, or the rotation is none of 0, 90, 180, 270, or the
    size of the image after rotation differs from the panel's; the error is
    raised before any call to the transport, so nothing is written. *)
Theorem image_validation (rotate : Image → Z → Image) (self : Display)
    (img : Image) (rotation : Z) :
  (∃ e, validation_error self e
        ∧ image rotate self img rotation = Raise e
        ∧ ∀ (S : Type) (T : BusTransport S) (s : S),
            run T (image rotate self img rotation) s = (Err e, s))
  ↔ ((mode img ≠ "RGB" ∧ mode img ≠ "RGBA")
     ∨ (rotation ≠ 0 ∧ rotation ≠ 90 ∧ rotation ≠ 180 ∧ rotation ≠ 270)
     ∨ size (rotated rotate img rotation) ≠ (width self, height self)).
Proof.
  assert (Hraise : ∀ e, image rotate self img rotation = Raise e →
            ∀ (S : Type) (T : BusTransport S) (s : S),
              run T (image rotate self img rotation) s = (Err e, s)).
  { by intros e -> S T s. }
  unfold image in *. fold (rotated rotate img rotation) in *.
  case_bool_decide as Hmode.
  { split; [intros _ | intros _; eexists; split; [constructor | by auto]].
    left. rewrite !not_elem_of_cons in Hmode. tauto. }
  case_bool_decide as Hrot.
  { split; [intros _ | intros _; eexists; split; [constructor | by auto]].
    right; left. rewrite !not_elem_of_cons in Hrot. tauto. }
  destruct (size (rotated rotate img rotation)) as [imwidth imheight].
  case_bool_decide as Hsize.
  { split; [intros _ | intros _; eexists; split; [constructor | by auto]].
    right; right. intros [= -> ->]. tauto. }
  split.
  - intros (e & Hv & He & _). by apply image_body_Raise in He.
  - intros [Hm | [Hr | Hs]]; exfalso.
    + rewrite !elem_of_cons, elem_of_nil in Hmode. tauto.
    + rewrite !elem_of_cons, elem_of_nil in Hrot. tauto.
    + apply Hs. f_equal; lia.
Qed.

(** A rotation of 45 degrees is refused before the transport is used. *)
Lemma image_validation_witness :
  ∃ e, validation_error (panel_of 1 1 0 0) e
       ∧ image pil_rotate (panel_of 1 1 0 0) (one_pixel "RGB" [255; 0; 0]) 45
         = Raise e.
Proof.
  destruct (proj2 (image_validation pil_rotate (panel_of 1 1 0 0)
                     (one_pixel "RGB" [255; 0; 0]) 45))
    as (e & Hv & He & _).
  - right; left. lia.
  - exists e. by split.
Defined.

(** C8 fails on the code for RGBA sources: a 1x1 RGBA image on a 1x1 panel
    is accepted by the mode check and then raises [ValueError] from
    [color565] with nothing written, where the same pixel in mode RGB is
    written as the two bytes of its 565 value. *)
Theorem image_rgba_rejected :
  image pil_rotate (panel_of 1 1 0 0) (one_pixel "RGBA" [255; 0; 0; 255]) 0
    = Raise (ValueError "too many values to unpack (expected 3)")
  ∧ run (Recorder (answering []))
        (image pil_rotate (panel_of 1 1 0 0)
               (one_pixel "RGBA" [255; 0; 0; 255]) 0) []
    = (Err (ValueError "too many values to unpack (expected 3)"), [])
  ∧ run (Recorder (answering []))
        (image pil_rotate (panel_of 1 1 0 0) (one_pixel "RGB" [255; 0; 0]) 0)
        []
    = (Ok tt,
       [CWrite (Some 0x2A) (Some [0; 0; 0; 0]);
        CWrite (Some 0x2B) (Some [0; 0; 0; 0]);
        CWrite (Some 0x2C) (Some [248; 0])]).
Proof. repeat split; reflexivity. Qed.

(** C9, as the code has it: for every integer r, g, b, [color565] returns
    without raising; r and g are masked but b is only shifted, so the value
    fits in 16 bits exactly when [0 <= b < 2^19], in particular for every
    b in [0, 255]. *)
Theorem color565_total_range (r g b : Z) :
  ∃ v, color565 (PyInt r) g b = Ok v
       ∧ (fits16 v ↔ 0 <= b < 524288)
       ∧ (0 <= b <= 255 → fits16 v).
Proof.
  exists (pack565_spec r g b). split; [apply color565_int |].
  split; [apply pack565_range |].
  intros Hb. apply pack565_range. lia.
Qed.

Lemma color565_total_range_witness :
  ∃ v, color565 (PyInt 300) (-7) 255 = Ok v ∧ fits16 v.
Proof.
  destruct (color565_total_range 300 (-7) 255) as (v & Hv & _ & Hfit).
  exists v. split; [exact Hv |]. apply Hfit. lia.
Defined.

(** C9 as stated fails: a blue channel of 2^19 is not masked and the result
    needs 17 bits. *)
Lemma color565_blue_not_masked :
  color565 (PyInt 0) 0 524288 = Ok 65536 ∧ ¬ fits16 65536.
Proof. split; [reflexivity | unfold fits16; lia]. Qed.

(** C10, as the code has it: the read path compares nothing with the panel
    size.  For every (x, y) whose offset coordinates fit the 16-bit position
    format, inside the panel or not, [pixel(x, y)] issues the column-set,
    page-set and RAM-read calls with the raw coordinates plus offsets, while
    [pixel(x, y, color)] outside the panel issues nothing. *)
Theorem pixel_read_unchecked (panel : list call → Z → bytes)
    (self : Display) (x y : Z) (log : list call) :
  0 <= x + _X_START self <= 65535 →
  0 <= y + _Y_START self <= 65535 →
  ∃ cols rows,
    _encode_pos (x + _X_START self) (x + _X_START self) = Ok cols
    ∧ _encode_pos (y + _Y_START self) (y + _Y_START self) = Ok rows
    ∧ (run (Recorder panel) (pixel self x y None) log).2
      = log ++ [CWrite (_COLUMN_SET self) (Some cols);
                CWrite (_PAGE_SET self) (Some rows);
                CRead (_RAM_READ self) 3]
    ∧ (¬ (0 <= x < width self ∧ 0 <= y < height self) →
       ∀ color,
         run (Recorder panel) (pixel self x y (Some color)) log
         = (Ok PyNone, log)).
Proof.
  intros Hx Hy. eexists _, _.
  split; [by apply encode_pos_Ok |]. split; [by apply encode_pos_Ok |].
  split.
  - by rewrite (pixel_read_run panel self x y _ _ log
                  (encode_pos_Ok _ _ Hx Hx) (encode_pos_Ok _ _ Hy Hy)).
  - intros Hout color. unfold pixel. by rewrite bool_decide_eq_false_2.
Qed.

Lemma pixel_read_unchecked_witness :
  (run (Recorder (answering [248; 0; 0])) (pixel (panel_of 2 2 0 0) 2 5 None)
       []).2
    = [CWrite (Some 0x2A) (Some [0; 2; 0; 2]);
       CWrite (Some 0x2B) (Some [0; 5; 0; 5]);
       CRead (Some 0x2E) 3]
  ∧ run (Recorder (answering [248; 0; 0]))
        (pixel (panel_of 2 2 0 0) 2 5 (Some 0xF800)) []
    = (Ok PyNone, []).
Proof.
  destruct (pixel_read_unchecked (answering [248; 0; 0]) (panel_of 2 2 0 0)
              2 5 [] ltac:(simpl; lia) ltac:(simpl; lia))
    as (cols & rows & Hc & Hr & Hread & Hwrite).
  assert (cols = [0; 2; 0; 2]) as -> by (vm_compute in Hc; congruence).
  assert (rows = [0; 5; 0; 5]) as -> by (vm_compute in Hr; congruence).
  split; [exact Hread |]. apply Hwrite. simpl. lia.
Defined.

(** C10 as stated fails: at (-1, 0) with no offset the position does not
    encode, and the read raises before any call is made. *)
Lemma pixel_read_negative_raises :
  run (Recorder (answering [248; 0; 0])) (pixel (panel_of 2 2 0 0) (-1) 0 None)
      []
    = (Err struct_error, [])
  ∧ ¬ ∃ cols rows,
        (run (Recorder (answering [248; 0; 0]))
             (pixel (panel_of 2 2 0 0) (-1) 0 None) []).2
        = [CWrite (Some 0x2A) (Some cols); CWrite (Some 0x2B) (Some rows);
           CRead (Some 0x2E) 3].
Proof.
  split; [reflexivity |]. intros (cols & rows & H). discriminate H.
Qed.

(** * Further properties of the driver *)

(** ** The 565 value *)

(** X1: for every integer r, g and every blue byte b, [color565] is the
    three truncated channels side by side: five bits of red above six bits
    of green above five bits of blue. *)
Theorem color565_fields (r g b : Z) :
  0 <= b <= 255 →
  color565 (PyInt r) g b
  = Ok (2048 * ((r `div` 8) `mod` 32) + 32 * ((g `div` 4) `mod` 64)
        + b `div` 8).
Proof. intros Hb. rewrite color565_int. f_equal. by apply pack565_fields. Qed.

Lemma color565_fields_witness : color565 (PyInt 255) 255 255 = Ok 65535.
Proof. apply (color565_fields 255 255 255). lia. Defined.

Lemma byte_quotients (v q : Z) :
  0 < q → 0 <= v <= 255 → 0 <= v `div` q <= 255 `div` q.
Proof.
  intros Hq Hv. split; [apply Z.div_pos; lia |].
  apply Z.div_le_mono; lia.
Qed.

(** X2: two colours with byte channels get the same 565 value exactly when
    they agree on the top five bits of red, the top six of green and the top
    five of blue. *)
Theorem color565_collide_iff (r g b r' g' b' : Z) :
  0 <= r <= 255 → 0 <= g <= 255 → 0 <= b <= 255 →
  0 <= r' <= 255 → 0 <= g' <= 255 → 0 <= b' <= 255 →
  color565 (PyInt r) g b = color565 (PyInt r') g' b'
  ↔ r `div` 8 = r' `div` 8 ∧ g `div` 4 = g' `div` 4 ∧ b `div` 8 = b' `div` 8.
Proof.
  intros Hr Hg Hb Hr' Hg' Hb'.
  rewrite !color565_int, !pack565_fields by done.
  pose proof (byte_quotients r 8 ltac:(lia) Hr) as HR.
  pose proof (byte_quotients g 4 ltac:(lia) Hg) as HG.
  pose proof (byte_quotients b 8 ltac:(lia) Hb) as HB.
  pose proof (byte_quotients r' 8 ltac:(lia) Hr') as HR'.
  pose proof (byte_quotients g' 4 ltac:(lia) Hg') as HG'.
  pose proof (byte_quotients b' 8 ltac:(lia) Hb') as HB'.
  change (255 `div` 8) with 31 in *. change (255 `div` 4) with 63 in *.
  rewrite !Z.mod_small by lia.
  split; [intros [= Heq]; lia | intros (-> & -> & ->); reflexivity].
Qed.

Lemma color565_collide_iff_witness :
  color565 (PyInt 255) 3 7 = color565 (PyInt 248) 0 0.
Proof.
  apply (color565_collide_iff 255 3 7 248 0 0); try lia.
  by repeat split.
Defined.

(** X3: a sequence that does not hold exactly three values makes [color565]
    raise [ValueError] (only [TypeError] is caught), and [None] makes it
    raise [TypeError]. *)
Theorem color565_bad_first_argument (items : list Z) (g b : Z) :
  (length items ≠ 3%nat →
   ∃ msg, color565 (PyTuple items) g b = Err (ValueError msg))
  ∧ color565 PyNone g b = Err TypeError.
Proof.
  split; [| reflexivity]. intros Hlen.
  destruct items as [| r [| g' [| b' [| a items]]]]; simpl in Hlen |- *;
    first [lia | eexists; reflexivity].
Qed.

Lemma color565_bad_first_argument_witness :
  ∃ msg, color565 (PyTuple [255; 0; 0; 255]) 0 0 = Err (ValueError msg).
Proof.
  apply (proj1 (color565_bad_first_argument [255; 0; 0; 255] 0 0)).
  simpl. lia.
Defined.

(** ** Wire formats *)

Lemma encode_pixel_Err (color : Z) :
  ¬ (0 <= color <= 65535) → _encode_pixel color = Err struct_error.
Proof.
  intros Hc. unfold _encode_pixel, _ENCODE_PIXEL. simpl.
  by rewrite bool_decide_eq_false_2.
Qed.

Lemma halfword_bytes (v : Z) :
  0 <= v <= 65535 →
  (0 <= v `div` 256 < 256 ∧ 0 <= v `mod` 256 < 256)
  ∧ v `div` 256 * 256 + v `mod` 256 = v.
Proof.
  intros Hv. pose proof (Z.div_mod v 256 ltac:(lia)).
  pose proof (Z.mod_pos_bound v 256 ltac:(lia)). lia.
Qed.

(** X4: [_decode_pixel] accepts exactly the buffers of three bytes, for
    which it returns the 565 value of the three; any other length raises
    [struct.error]. *)
Theorem decode_pixel_three_bytes (data : bytes) :
  (∃ r g b, data = [r; g; b]
            ∧ _decode_pixel (Some data) = Ok (pack565_spec r g b))
  ∨ (length data ≠ 3%nat ∧ _decode_pixel (Some data) = Err struct_error).
Proof.
  destruct data as [| r [| g [| b [| a data]]]].
  - right. split; [simpl; lia | reflexivity].
  - right. split; [simpl; lia | reflexivity].
  - right. split; [simpl; lia | reflexivity].
  - left. by exists r, g, b.
  - right. split; [simpl; lia |].
    unfold _decode_pixel, struct.unpack.
    rewrite bool_decide_eq_false_2; [reflexivity |].
    unfold _DECODE_PIXEL. simpl. lia.
Qed.

(** X5: [_encode_pos] succeeds exactly on two values of 16 bits; it then
    gives four bytes, x before y and high byte first, from which
    [struct.unpack] gets x and y back.  Anything else raises
    [struct.error]. *)
Theorem encode_pos_round_trip (x y : Z) :
  (0 <= x <= 65535 → 0 <= y <= 65535 →
   ∃ bs, _encode_pos x y = Ok bs
         ∧ length bs = 4%nat
         ∧ Forall (λ v, 0 <= v < 256) bs
         ∧ struct.unpack _ENCODE_POS bs = Ok [x; y])
  ∧ (¬ (0 <= x <= 65535 ∧ 0 <= y <= 65535) →
     _encode_pos x y = Err struct_error).
Proof.
  split; [| apply encode_pos_Err].
  intros Hx Hy. eexists. split; [by apply encode_pos_Ok |].
  destruct (halfword_bytes x Hx) as [[Hx1 Hx2] Hx3].
  destruct (halfword_bytes y Hy) as [[Hy1 Hy2] Hy3].
  split; [reflexivity |]. split.
  { do 4 (apply List.Forall_cons; [done |]). apply List.Forall_nil. }
  unfold struct.unpack, _ENCODE_POS. simpl. by rewrite Hx3, Hy3.
Qed.

Lemma encode_pos_round_trip_witness :
  ∃ bs, _encode_pos 319 239 = Ok bs
        ∧ struct.unpack _ENCODE_POS bs = Ok [319; 239].
Proof.
  destruct (proj1 (encode_pos_round_trip 319 239) ltac:(lia) ltac:(lia))
    as (bs & Hbs & _ & _ & Hback).
  by exists bs.
Defined.

(** ** The address window *)

(** X6: when the column pair encodes and the row pair does not, [_block]
    has already sent the column-set command when it raises: exactly that
    one call is made, on the read path and on the write path alike. *)
Theorem block_fails_after_column_set (panel : list call → Z → bytes)
    (self : Display) (x0 y0 x1 y1 : Z) (data : option bytes) (cols : bytes)
    (log : list call) :
  _encode_pos (x0 + _X_START self) (x1 + _X_START self) = Ok cols →
  ¬ (0 <= y0 + _Y_START self <= 65535 ∧ 0 <= y1 + _Y_START self <= 65535) →
  run (Recorder panel) (_block self x0 y0 x1 y1 data) log
  = (Err struct_error, log ++ [CWrite (_COLUMN_SET self) (Some cols)]).
Proof.
  intros Hc Hr. unfold _block. rewrite Hc. simpl.
  by rewrite (encode_pos_Err _ _ Hr).
Qed.

Lemma block_fails_after_column_set_witness :
  run (Recorder (answering [])) (_block (panel_of 2 2 0 0) 0 (-1) 1 0 None) []
  = (Err struct_error, [CWrite (Some 0x2A) (Some [0; 0; 0; 1])]).
Proof.
  apply (block_fails_after_column_set (answering []) (panel_of 2 2 0 0)
           0 (-1) 1 0 None [0; 0; 0; 1] []); [reflexivity |].
  simpl. lia.
Defined.

(** ** Single pixels *)

(** X7: inside the panel, a colour that does not fit 16 bits makes
    [pixel(x, y, color)] raise [struct.error] before the window is set:
    the program is the bare raise, whatever the transport. *)
Theorem pixel_write_bad_colour (self : Display) (x y color : Z) :
  0 <= x < width self → 0 <= y < height self →
  ¬ (0 <= color <= 65535) →
  pixel self x y (Some color) = Raise struct_error.
Proof.
  intros Hx Hy Hc. unfold pixel.
  rewrite bool_decide_eq_true_2 by done.
  by rewrite (encode_pixel_Err _ Hc).
Qed.

Lemma pixel_write_bad_colour_witness :
  run DisplaySPI (pixel (panel_of 2 2 0 0) 1 1 (Some 65536)) idle_link
  = (Err struct_error, idle_link).
Proof.
  rewrite (pixel_write_bad_colour (panel_of 2 2 0 0) 1 1 65536);
    [reflexivity | simpl; lia | simpl; lia | lia].
Defined.

(** X8: a read at a column that does not fit the position format raises
    before any call; at an encodable column and a row that does not fit, it
    raises after the column-set call.  No RAM read is issued either way. *)
Theorem pixel_read_unencodable (panel : list call → Z → bytes)
    (self : Display) (x y : Z) (log : list call) :
  (¬ (0 <= x + _X_START self <= 65535) →
   run (Recorder panel) (pixel self x y None) log = (Err struct_error, log))
  ∧ (0 <= x + _X_START self <= 65535 →
     ¬ (0 <= y + _Y_START self <= 65535) →
     ∃ cols,
       _encode_pos (x + _X_START self) (x + _X_START self) = Ok cols
       ∧ run (Recorder panel) (pixel self x y None) log
         = (Err struct_error, log ++ [CWrite (_COLUMN_SET self) (Some cols)])).
Proof.
  split.
  - intros Hx. unfold pixel, _block.
    rewrite (encode_pos_Err (x + _X_START self) (x + _X_START self));
      [reflexivity | tauto].
  - intros Hx Hy. eexists. split; [by apply encode_pos_Ok |].
    unfold pixel, _block. rewrite (encode_pos_Ok _ _ Hx Hx). simpl.
    rewrite (encode_pos_Err (y + _Y_START self) (y + _Y_START self));
      [reflexivity | tauto].
Qed.

Lemma pixel_read_unencodable_witness :
  run (Recorder (answering [])) (pixel (panel_of 2 2 0 0) 70000 0 None) []
    = (Err struct_error, [])
  ∧ run (Recorder (answering [])) (pixel (panel_of 2 2 0 0) 1 (-1) None) []
    = (Err struct_error, [CWrite (Some 0x2A) (Some [0; 1; 0; 1])]).
Proof.
  destruct (pixel_read_unencodable (answering []) (panel_of 2 2 0 0)
              70000 0 []) as [Hx _].
  destruct (pixel_read_unencodable (answering []) (panel_of 2 2 0 0)
              1 (-1) []) as [_ Hy].
  split; [apply Hx; simpl; lia |].
  destruct (Hy ltac:(simpl; lia) ltac:(simpl; lia)) as (cols & Hc & Hrun).
  assert (cols = [0; 1; 0; 1]) as -> by (vm_compute in Hc; congruence).
  exact Hrun.
Defined.

(** ** Rectangles and lines *)

Lemma length_bytes_mul (px : bytes) (n : Z) :
  length (bytes_mul px n) = (Z.to_nat n * length px)%nat.
Proof.
  unfold bytes_mul. induction (Z.to_nat n) as [| k IH]; simpl; [done |].
  rewrite length_app, IH. lia.
Qed.

(** X9: [fill_rectangle] sets the window and sends the RAM-write command
    before it looks at the colour or the buffer size: a colour outside 16
    bits raises [struct.error], a buffer size of 0 raises
    [ZeroDivisionError], and in both cases the three opening calls have been
    made and no pixel data follows. *)
Theorem fill_rectangle_fails_after_window (_BUFFER_SIZE : Z)
    (panel : list call → Z → bytes) (self : Display)
    (x y w h color : Z) (cols rows : bytes) (log : list call) :
  let cx := clamp_x self x in
  let cy := clamp_y self y in
  let cw := clamp_w self x w in
  let ch := clamp_h self y h in
  let opened :=
    log ++ [CWrite (_COLUMN_SET self) (Some cols);
            CWrite (_PAGE_SET self) (Some rows);
            CWrite (_RAM_WRITE self) (Some [])] in
  _encode_pos (cx + _X_START self) (cx + cw - 1 + _X_START self) = Ok cols →
  _encode_pos (cy + _Y_START self) (cy + ch - 1 + _Y_START self) = Ok rows →
  (_BUFFER_SIZE = 0 →
   run (Recorder panel) (fill_rectangle _BUFFER_SIZE self x y w h color) log
   = (Err ZeroDivisionError, opened))
  ∧ (_BUFFER_SIZE ≠ 0 → ¬ (0 <= color <= 65535) →
     run (Recorder panel) (fill_rectangle _BUFFER_SIZE self x y w h color) log
     = (Err struct_error, opened)).
Proof.
  intros cx cy cw ch opened Hc Hr.
  rewrite (fill_rectangle_window _ _ _ _ _ _ _ _ _ _ _ Hc Hr).
  fold cw ch. unfold divmod. split.
  - intros ->. by rewrite bool_decide_eq_true_2.
  - intros Hb Hcol. rewrite bool_decide_eq_false_2 by done.
    by rewrite (encode_pixel_Err _ Hcol).
Qed.

Lemma fill_rectangle_fails_after_window_witness :
  run (Recorder (answering []))
      (fill_rectangle 256 (panel_of 2 2 0 0) 0 0 2 2 (-1)) []
  = (Err struct_error,
     [CWrite (Some 0x2A) (Some [0; 0; 0; 1]);
      CWrite (Some 0x2B) (Some [0; 0; 0; 1]);
      CWrite (Some 0x2C) (Some [])])
  ∧ run (Recorder (answering []))
        (fill_rectangle 0 (panel_of 2 2 0 0) 0 0 2 2 0xF800) []
    = (Err ZeroDivisionError,
       [CWrite (Some 0x2A) (Some [0; 0; 0; 1]);
        CWrite (Some 0x2B) (Some [0; 0; 0; 1]);
        CWrite (Some 0x2C) (Some [])]).
Proof.
  split.
  - apply (fill_rectangle_fails_after_window 256 (answering [])
             (panel_of 2 2 0 0) 0 0 2 2 (-1) [0; 0; 0; 1] [0; 0; 0; 1] []
             eq_refl eq_refl); lia.
  - apply (fill_rectangle_fails_after_window 0 (answering [])
             (panel_of 2 2 0 0) 0 0 2 2 0xF800 [0; 0; 0; 1] [0; 0; 0; 1] []
             eq_refl eq_refl); lia.
Defined.

(** X10: the data of a fill goes out in [(w*h) div _BUFFER_SIZE + 1] writes
    after the window, none of which carries more than [_BUFFER_SIZE]
    pixels. *)
Theorem fill_rectangle_chunk_bound (_BUFFER_SIZE : Z)
    (panel : list call → Z → bytes) (self : Display)
    (x y w h color : Z) (cols rows px : bytes) (log : list call) :
  let cx := clamp_x self x in
  let cy := clamp_y self y in
  let cw := clamp_w self x w in
  let ch := clamp_h self y h in
  0 < _BUFFER_SIZE →
  _encode_pos (cx + _X_START self) (cx + cw - 1 + _X_START self) = Ok cols →
  _encode_pos (cy + _Y_START self) (cy + ch - 1 + _Y_START self) = Ok rows →
  _encode_pixel color = Ok px →
  ∃ tail,
    run (Recorder panel) (fill_rectangle _BUFFER_SIZE self x y w h color) log
    = (Ok tt,
       log ++ [CWrite (_COLUMN_SET self) (Some cols);
               CWrite (_PAGE_SET self) (Some rows);
               CWrite (_RAM_WRITE self) (Some [])] ++ tail)
    ∧ Z.of_nat (length tail) = (cw * ch) `div` _BUFFER_SIZE + 1
    ∧ Forall (λ c, ∃ d, c = CWrite None (Some d)
                        ∧ Z.of_nat (length d)
                          <= _BUFFER_SIZE * Z.of_nat (length px)) tail.
Proof.
  intros cx cy cw ch Hb Hc Hr Hp.
  exists (chunk_calls px _BUFFER_SIZE (cw * ch)).
  split; [by apply fill_rectangle_run |].
  assert (Hn : 0 <= cw * ch).
  { pose proof (clamp_w_min self x w). pose proof (clamp_h_min self y h).
    subst cw ch. nia. }
  assert (0 <= (cw * ch) `div` _BUFFER_SIZE) by (apply Z.div_pos; lia).
  pose proof (Z.mod_pos_bound (cw * ch) _BUFFER_SIZE Hb) as Hrest.
  unfold chunk_calls. split.
  - rewrite length_app, length_replicate. simpl. lia.
  - apply Forall_app. split.
    + apply Forall_replicate. eexists. split; [reflexivity |].
      rewrite length_bytes_mul. lia.
    + apply List.Forall_cons; [| apply List.Forall_nil].
      eexists. split; [reflexivity |]. rewrite length_bytes_mul. nia.
Qed.

Lemma fill_rectangle_chunk_bound_witness :
  ∃ tail,
    run (Recorder (answering []))
        (fill_rectangle 4 (panel_of 3 3 0 0) 0 0 3 3 0xF800) []
    = (Ok tt,
       [CWrite (Some 0x2A) (Some [0; 0; 0; 2]);
        CWrite (Some 0x2B) (Some [0; 0; 0; 2]);
        CWrite (Some 0x2C) (Some [])] ++ tail)
    ∧ Z.of_nat (length tail) = 3.
Proof.
  destruct (fill_rectangle_chunk_bound 4 (answering []) (panel_of 3 3 0 0)
              0 0 3 3 0xF800 [0; 0; 0; 2] [0; 0; 0; 2] [248; 0] []
              ltac:(lia) eq_refl eq_refl eq_refl) as (tail & Hrun & Hlen & _).
  exists tail. split; [exact Hrun | exact Hlen].
Defined.

Lemma clamp_inside (self : Display) (x y w h : Z) :
  0 <= x → 0 <= y → 1 <= w → 1 <= h →
  x + w <= width self → y + h <= height self →
  clamp_x self x = x ∧ clamp_y self y = y
  ∧ clamp_w self x w = w ∧ clamp_h self y h = h.
Proof. unfold clamp_w, clamp_h, clamp_x, clamp_y. lia. Qed.

(** X11: a rectangle that lies inside the panel is filled as given: the
    window is [x .. x+w-1] by [y .. y+h-1], shifted by the offsets, and the
    data after it is the encoded pixel w*h times. *)
Theorem fill_rectangle_inside (_BUFFER_SIZE : Z)
    (panel : list call → Z → bytes) (self : Display)
    (x y w h color : Z) (cols rows px : bytes) (log : list call) :
  0 < _BUFFER_SIZE →
  0 <= x → 0 <= y → 1 <= w → 1 <= h →
  x + w <= width self → y + h <= height self →
  _encode_pos (x + _X_START self) (x + w - 1 + _X_START self) = Ok cols →
  _encode_pos (y + _Y_START self) (y + h - 1 + _Y_START self) = Ok rows →
  _encode_pixel color = Ok px →
  ∃ tail,
    run (Recorder panel) (fill_rectangle _BUFFER_SIZE self x y w h color) log
    = (Ok tt,
       log ++ [CWrite (_COLUMN_SET self) (Some cols);
               CWrite (_PAGE_SET self) (Some rows);
               CWrite (_RAM_WRITE self) (Some [])] ++ tail)
    ∧ data_bytes tail = bytes_mul px (w * h).
Proof.
  intros Hb Hx Hy Hw Hh Hxw Hyh Hc Hr Hp.
  destruct (clamp_inside self x y w h Hx Hy Hw Hh Hxw Hyh)
    as (Ecx & Ecy & Ecw & Ech).
  exists (chunk_calls px _BUFFER_SIZE (w * h)). split.
  - rewrite <- Ecw at 2. rewrite <- Ech at 2.
    apply fill_rectangle_run; [done | | | done].
    + by rewrite Ecx, Ecw.
    + by rewrite Ecy, Ech.
  - apply data_bytes_chunk_calls; [done | nia].
Qed.

Lemma fill_rectangle_inside_witness :
  ∃ tail,
    run (Recorder (answering []))
        (fill_rectangle 256 (panel_of 8 8 2 1) 3 4 2 3 0x001F) []
    = (Ok tt,
       [CWrite (Some 0x2A) (Some [0; 5; 0; 6]);
        CWrite (Some 0x2B) (Some [0; 5; 0; 7]);
        CWrite (Some 0x2C) (Some [])] ++ tail)
    ∧ data_bytes tail = bytes_mul [0; 31] 6.
Proof.
  apply (fill_rectangle_inside 256 (answering []) (panel_of 8 8 2 1)
           3 4 2 3 0x001F [0; 5; 0; 6] [0; 5; 0; 7] [0; 31] []);
    simpl; try lia; reflexivity.
Defined.

(** X12: clamping is idempotent: filling the clamped rectangle is the same
    program as filling the rectangle it was clamped from, for every panel
    and on every transport. *)
Theorem fill_rectangle_clamp_idempotent (_BUFFER_SIZE : Z) (self : Display)
    (x y w h color : Z) :
  fill_rectangle _BUFFER_SIZE self
    (clamp_x self x) (clamp_y self y) (clamp_w self x w) (clamp_h self y h)
    color
  = fill_rectangle _BUFFER_SIZE self x y w h color.
Proof.
  assert (Ex : clamp_x self (clamp_x self x) = clamp_x self x)
    by (unfold clamp_x; lia).
  assert (Ey : clamp_y self (clamp_y self y) = clamp_y self y)
    by (unfold clamp_y; lia).
  assert (Ew : clamp_w self (clamp_x self x) (clamp_w self x w)
               = clamp_w self x w)
    by (unfold clamp_w at 1; rewrite Ex; unfold clamp_w, clamp_x; lia).
  assert (Eh : clamp_h self (clamp_y self y) (clamp_h self y h)
               = clamp_h self y h)
    by (unfold clamp_h at 1; rewrite Ey; unfold clamp_h, clamp_y; lia).
  unfold fill_rectangle.
  change (Z.min (width self - 1) (Z.max 0 (clamp_x self x)))
    with (clamp_x self (clamp_x self x)).
  change (Z.min (height self - 1) (Z.max 0 (clamp_y self y)))
    with (clamp_y self (clamp_y self y)).
  change (Z.min (width self - clamp_x self (clamp_x self x))
            (Z.max 1 (clamp_w self x w)))
    with (clamp_w self (clamp_x self x) (clamp_w self x w)).
  change (Z.min (height self - clamp_y self (clamp_y self y))
            (Z.max 1 (clamp_h self y h)))
    with (clamp_h self (clamp_y self y) (clamp_h self y h)).
  rewrite Ex, Ey, Ew, Eh. reflexivity.
Qed.

(** X13: on a panel of positive size addressable in 16 bits, [fill] sets
    the window to the whole panel, columns 0 to width-1 and rows 0 to
    height-1 shifted by the offsets, and streams width * height encoded
    pixels. *)
Theorem fill_covers_panel (_BUFFER_SIZE : Z)
    (panel : list call → Z → bytes) (self : Display) (color : Z)
    (log : list call) :
  0 < _BUFFER_SIZE →
  0 < width self → 0 < height self →
  0 <= _X_START self → width self + _X_START self <= 65536 →
  0 <= _Y_START self → height self + _Y_START self <= 65536 →
  0 <= color <= 65535 →
  ∃ cols rows px tail,
    _encode_pos (_X_START self) (width self - 1 + _X_START self) = Ok cols
    ∧ _encode_pos (_Y_START self) (height self - 1 + _Y_START self) = Ok rows
    ∧ _encode_pixel color = Ok px
    ∧ run (Recorder panel) (fill _BUFFER_SIZE self color) log
      = (Ok tt,
         log ++ [CWrite (_COLUMN_SET self) (Some cols);
                 CWrite (_PAGE_SET self) (Some rows);
                 CWrite (_RAM_WRITE self) (Some [])] ++ tail)
    ∧ data_bytes tail = bytes_mul px (width self * height self).
Proof.
  intros Hb HW HH Hx0 Hx1 Hy0 Hy1 Hcol.
  assert (Ecx : clamp_x self 0 = 0) by (unfold clamp_x; lia).
  assert (Ecy : clamp_y self 0 = 0) by (unfold clamp_y; lia).
  assert (Ecw : clamp_w self 0 (width self) = width self)
    by (unfold clamp_w; rewrite Ecx; lia).
  assert (Ech : clamp_h self 0 (height self) = height self)
    by (unfold clamp_h; rewrite Ecy; lia).
  eexists _, _, _, (chunk_calls _ _BUFFER_SIZE (width self * height self)).
  split; [apply encode_pos_Ok; lia |].
  split; [apply encode_pos_Ok; lia |].
  split; [by apply encode_pixel_Ok |]. split.
  - unfold fill.
    pose proof (fill_rectangle_run _BUFFER_SIZE panel self
                  0 0 (width self) (height self) color) as Hrun.
    cbn zeta in Hrun. rewrite Ecx, Ecy, Ecw, Ech in Hrun.
    apply Hrun; [done | | |].
    + replace (0 + _X_START self) with (_X_START self) by lia.
      replace (0 + width self - 1 + _X_START self)
        with (width self - 1 + _X_START self) by lia.
      apply encode_pos_Ok; lia.
    + replace (0 + _Y_START self) with (_Y_START self) by lia.
      replace (0 + height self - 1 + _Y_START self)
        with (height self - 1 + _Y_START self) by lia.
      apply encode_pos_Ok; lia.
    + by apply encode_pixel_Ok.
  - apply data_bytes_chunk_calls; [done | nia].
Qed.

Lemma fill_covers_panel_witness :
  ∃ tail,
    run (Recorder (answering [])) (fill 256 (panel_of 3 2 2 1) 0xF800) []
    = (Ok tt,
       [CWrite (Some 0x2A) (Some [0; 2; 0; 4]);
        CWrite (Some 0x2B) (Some [0; 1; 0; 2]);
        CWrite (Some 0x2C) (Some [])] ++ tail)
    ∧ data_bytes tail = bytes_mul [248; 0] 6.
Proof.
  destruct (fill_covers_panel 256 (answering []) (panel_of 3 2 2 1) 0xF800 []
              ltac:(lia) ltac:(simpl; lia) ltac:(simpl; lia)
              ltac:(simpl; lia) ltac:(simpl; lia)
              ltac:(simpl; lia) ltac:(simpl; lia) ltac:(lia))
    as (cols & rows & px & tail & Hc & Hr & Hp & Hrun & Hdata).
  exists tail.
  assert (cols = [0; 2; 0; 4]) as -> by (vm_compute in Hc; congruence).
  assert (rows = [0; 1; 0; 2]) as -> by (vm_compute in Hr; congruence).
  assert (px = [248; 0]) as -> by (vm_compute in Hp; congruence).
  split; [exact Hrun | exact Hdata].
Defined.

Lemma clamp_unit (self : Display) (x y : Z) :
  clamp_w self x 1 = 1 ∧ clamp_h self y 1 = 1.
Proof. unfold clamp_w, clamp_h, clamp_x, clamp_y. lia. Qed.

(** X14: [hline] fills one row and [vline] one column: the window of
    [hline] spans the clamped columns on the single clamped row y, that of
    [vline] the clamped rows on the single clamped column x, and the data is
    the encoded pixel once per clamped pixel of length. *)
Theorem lines_one_pixel_thick (_BUFFER_SIZE : Z)
    (panel : list call → Z → bytes) (self : Display) :
  (∀ x y n color cols rows px log,
     let cx := clamp_x self x in
     let cy := clamp_y self y in
     let cn := clamp_w self x n in
     0 < _BUFFER_SIZE →
     _encode_pos (cx + _X_START self) (cx + cn - 1 + _X_START self) = Ok cols →
     _encode_pos (cy + _Y_START self) (cy + _Y_START self) = Ok rows →
     _encode_pixel color = Ok px →
     ∃ tail,
       run (Recorder panel) (hline _BUFFER_SIZE self x y n color) log
       = (Ok tt,
          log ++ [CWrite (_COLUMN_SET self) (Some cols);
                  CWrite (_PAGE_SET self) (Some rows);
                  CWrite (_RAM_WRITE self) (Some [])] ++ tail)
       ∧ data_bytes tail = bytes_mul px cn)
  ∧ (∀ x y n color cols rows px log,
       let cx := clamp_x self x in
       let cy := clamp_y self y in
       let cn := clamp_h self y n in
       0 < _BUFFER_SIZE →
       _encode_pos (cx + _X_START self) (cx + _X_START self) = Ok cols →
       _encode_pos (cy + _Y_START self) (cy + cn - 1 + _Y_START self)
         = Ok rows →
       _encode_pixel color = Ok px →
       ∃ tail,
         run (Recorder panel) (vline _BUFFER_SIZE self x y n color) log
         = (Ok tt,
            log ++ [CWrite (_COLUMN_SET self) (Some cols);
                    CWrite (_PAGE_SET self) (Some rows);
                    CWrite (_RAM_WRITE self) (Some [])] ++ tail)
         ∧ data_bytes tail = bytes_mul px cn).
Proof.
  split.
  - intros x y n color cols rows px log cx cy cn Hb Hc Hr Hp.
    destruct (clamp_unit self x y) as [_ Eh].
    pose proof (clamp_w_min self x n) as Hn. fold cn in Hn.
    exists (chunk_calls px _BUFFER_SIZE cn). split.
    + unfold hline.
      pose proof (fill_rectangle_run _BUFFER_SIZE panel self x y n 1 color
                    cols rows px log) as Hrun.
      cbn zeta in Hrun. rewrite Eh in Hrun. fold cx cy cn in Hrun.
      replace (cn * 1) with cn in Hrun by lia.
      apply Hrun; [done | done | | done].
      by replace (cy + 1 - 1 + _Y_START self) with (cy + _Y_START self)
        by lia.
    + apply data_bytes_chunk_calls; lia.
  - intros x y n color cols rows px log cx cy cn Hb Hc Hr Hp.
    destruct (clamp_unit self x y) as [Ew _].
    pose proof (clamp_h_min self y n) as Hn. fold cn in Hn.
    exists (chunk_calls px _BUFFER_SIZE cn). split.
    + unfold vline.
      pose proof (fill_rectangle_run _BUFFER_SIZE panel self x y 1 n color
                    cols rows px log) as Hrun.
      cbn zeta in Hrun. rewrite Ew in Hrun. fold cx cy cn in Hrun.
      replace (1 * cn) with cn in Hrun by lia.
      apply Hrun; [done | | done | done].
      by replace (cx + 1 - 1 + _X_START self) with (cx + _X_START self)
        by lia.
    + apply data_bytes_chunk_calls; lia.
Qed.

Lemma lines_one_pixel_thick_witness :
  (∃ tail,
     run (Recorder (answering []))
         (hline 256 (panel_of 4 4 0 0) 1 2 9 0xF800) []
     = (Ok tt,
        [CWrite (Some 0x2A) (Some [0; 1; 0; 3]);
         CWrite (Some 0x2B) (Some [0; 2; 0; 2]);
         CWrite (Some 0x2C) (Some [])] ++ tail)
     ∧ data_bytes tail = bytes_mul [248; 0] 3)
  ∧ (∃ tail,
       run (Recorder (answering []))
           (vline 256 (panel_of 4 4 0 0) 1 2 9 0xF800) []
       = (Ok tt,
          [CWrite (Some 0x2A) (Some [0; 1; 0; 1]);
           CWrite (Some 0x2B) (Some [0; 2; 0; 3]);
           CWrite (Some 0x2C) (Some [])] ++ tail)
       ∧ data_bytes tail = bytes_mul [248; 0] 2).
Proof.
  destruct (lines_one_pixel_thick 256 (answering []) (panel_of 4 4 0 0))
    as [Hh Hv].
  split.
  - apply (Hh 1 2 9 0xF800 [0; 1; 0; 3] [0; 2; 0; 2] [248; 0] []);
      [lia | reflexivity..].
  - apply (Hv 1 2 9 0xF800 [0; 1; 0; 1] [0; 2; 0; 3] [248; 0] []);
      [lia | reflexivity..].
Defined.

(** ** Initialisation *)

(** X15: [init] sends the pairs of [_INIT] as one call each, in the order of
    the table and nothing else; running it again sends the same calls
    again. *)
Theorem init_replays_table (panel : list call → Z → bytes) (self : Display)
    (log : list call) :
  run (Recorder panel) (init self) log = (Ok tt, log ++ init_calls self)
  ∧ run (Recorder panel) (_ ← init self; init self) log
    = (Ok tt, log ++ init_calls self ++ init_calls self)
  ∧ length (init_calls self) = length (_INIT self).
Proof.
  split; [apply init_run |]. split.
  - rewrite run_bind, init_run, init_run. by rewrite <- (assoc_L (++)).
  - unfold init_calls. by rewrite length_fmap.
Qed.

(** ** Image blit *)

(** X16: for a source of three-channel byte pixels whose size after
    rotation is the panel's, [image] sets the window to the whole panel and
    makes one RAM write of width * height * 2 bytes, in which the 565 value
    of the (rotated) pixel (x, y) sits high byte first at byte offset
    2 * (y * width + x). *)
Theorem image_rgb_layout (rotate : Image → Z → Image)
    (panel : list call → Z → bytes) (self : Display) (img : Image)
    (rotation : Z) (cols rows : bytes) (log : list call) :
  let src := rotated rotate img rotation in
  mode img = "RGB" ∨ mode img = "RGBA" →
  rotation = 0 ∨ rotation = 90 ∨ rotation = 180 ∨ rotation = 270 →
  size src = (width self, height self) →
  rgb_pixels src →
  0 <= width self → 0 <= height self →
  _encode_pos (0 + _X_START self) (width self - 1 + _X_START self) = Ok cols →
  _encode_pos (0 + _Y_START self) (height self - 1 + _Y_START self) = Ok rows →
  ∃ pixels,
    run (Recorder panel) (image rotate self img rotation) log
    = (Ok tt,
       log ++ [CWrite (_COLUMN_SET self) (Some cols);
               CWrite (_PAGE_SET self) (Some rows);
               CWrite (_RAM_WRITE self) (Some pixels)])
    ∧ Z.of_nat (length pixels) = width self * height self * 2
    ∧ ∀ x y, 0 <= x < width self → 0 <= y < height self →
        ∃ v, color565 (getpixel src (x, y)) 0 0 = Ok v
             ∧ pixels !! Z.to_nat (2 * (y * width self + x))
               = Some (v `div` 256)
             ∧ pixels !! Z.to_nat (2 * (y * width self + x) + 1)
               = Some (v `mod` 256).
Proof.
  intros src Hmode Hrot Hsize Hrgb HW HH Hc Hr.
  destruct (image_rgb_block rotate panel self img rotation cols rows log
              Hmode Hrot Hsize Hrgb HW HH Hc Hr)
    as (pixels & Hrun & Hlen & Hcells).
  exists pixels. split; [exact Hrun |]. split; [exact Hlen |].
  intros x y Hx Hy. destruct (Hcells x y Hx Hy) as [Hhi Hlo].
  fold src in Hhi, Hlo.
  exists (pixel565 src x y). split.
  - unfold pixel565. destruct (Hrgb x y) as (r & g & b & -> & _);
      [by rewrite Hsize | by rewrite Hsize | reflexivity].
  - rewrite Z.shiftr_div_pow2 in Hhi by lia.
    change 0xFF with (Z.ones 8) in Hlo. rewrite Z.land_ones in Hlo by lia.
    by split.
Qed.

Lemma image_rgb_layout_witness :
  ∃ pixels,
    run (Recorder (answering []))
        (image pil_rotate (panel_of 1 1 0 0) (one_pixel "RGB" [255; 0; 0]) 90)
        []
    = (Ok tt,
       [CWrite (Some 0x2A) (Some [0; 0; 0; 0]);
        CWrite (Some 0x2B) (Some [0; 0; 0; 0]);
        CWrite (Some 0x2C) (Some pixels)])
    ∧ Z.of_nat (length pixels) = 2.
Proof.
  destruct (image_rgb_layout pil_rotate (answering []) (panel_of 1 1 0 0)
              (one_pixel "RGB" [255; 0; 0]) 90 [0; 0; 0; 0] [0; 0; 0; 0] [])
    as (pixels & Hrun & Hlen & _).
  - by left.
  - right; left; reflexivity.
  - reflexivity.
  - intros x y _ _. exists 255, 0, 0. repeat split; lia.
  - simpl; lia.
  - simpl; lia.
  - reflexivity.
  - reflexivity.
  - exists pixels. split; [exact Hrun | exact Hlen].
Defined.

Lemma image_rgba_raises_witness :
  image pil_rotate (panel_of 2 2 0 0)
        {| mode := "RGBA"; size := (2, 2);
           getpixel := λ _, PyTuple [0; 255; 0; 128] |} 180
  = Raise (ValueError "too many values to unpack (expected 3)").
Proof.
  apply (image_rgba_raises pil_rotate (panel_of 2 2 0 0) _ 180 0 255 0 128 []).
  - by right.
  - right; right; left; reflexivity.
  - reflexivity.
  - simpl; lia.
  - simpl; lia.
  - reflexivity.
Defined.

Lemma for_in_preserves {St : Type} (P : St → Prop)
    (body : Z → St → result St) (xs : list Z) (s s' : St) :
  (∀ i s s', body i s = Ok s' → P s → P s') →
  P s → for_in xs body s = Ok s' → P s'.
Proof.
  intros Hbody. revert s. induction xs as [| i xs IH]; intros s Hs; simpl.
  - by intros [= <-].
  - destruct (body i s) as [s1 | e] eqn:Hb; simpl; [| discriminate].
    apply IH. by eapply Hbody.
Qed.

Lemma bytearray_setitem_length (buf buf' : bytes) (i v : Z) :
  bytearray_setitem buf i v = Ok buf' → length buf' = length buf.
Proof.
  unfold bytearray_setitem. repeat case_bool_decide; intros [= <-];
    apply length_insert.
Qed.

Lemma image_store_length (self : Display) (img : Image) (x y : Z)
    (buf buf' : bytes) :
  image_store self img x y buf = Ok buf' → length buf' = length buf.
Proof.
  unfold image_store.
  destruct (color565 _ 0 0) as [pix | e]; simpl; [| discriminate].
  destruct (bytearray_setitem buf _ _) as [buf1 | e] eqn:H1; simpl;
    [| discriminate].
  intros H2. apply bytearray_setitem_length in H1, H2. congruence.
Qed.

(** X18: whatever the image, [image] ends in one of three ways: it raises
    with nothing sent; it raises [struct.error] after the column-set call,
    when only the row pair fails to encode; or it returns after exactly
    three calls, the last being one RAM write of width * height * 2 bytes.
    It never reads and never sends part of the pixel buffer. *)
Theorem image_outcomes (rotate : Image → Z → Image)
    (panel : list call → Z → bytes) (self : Display) (img : Image)
    (rotation : Z) (log : list call) :
  (∃ e, run (Recorder panel) (image rotate self img rotation) log
        = (Err e, log))
  ∨ (∃ cols, run (Recorder panel) (image rotate self img rotation) log
             = (Err struct_error,
                log ++ [CWrite (_COLUMN_SET self) (Some cols)]))
  ∨ (∃ cols rows pixels,
       run (Recorder panel) (image rotate self img rotation) log
       = (Ok tt,
          log ++ [CWrite (_COLUMN_SET self) (Some cols);
                  CWrite (_PAGE_SET self) (Some rows);
                  CWrite (_RAM_WRITE self) (Some pixels)])
       ∧ Z.of_nat (length pixels) = width self * height self * 2).
Proof.
  unfold image. fold (rotated rotate img rotation).
  case_bool_decide; [left; by eexists |].
  case_bool_decide; [left; by eexists |].
  destruct (size (rotated rotate img rotation)) as [imwidth imheight].
  case_bool_decide; [left; by eexists |].
  unfold bytearray. case_bool_decide as Hneg; [left; by eexists |].
  rewrite run_lift.
  destruct (for_in (range (width self)) _ _) as [pixels | e] eqn:Hloop;
    [| left; by eexists].
  assert (Hlen : Z.of_nat (length pixels) = width self * height self * 2).
  { assert (length pixels
            = length (replicate (Z.to_nat (width self * height self * 2)) 0))
      as ->.
    { revert Hloop.
      apply (for_in_preserves (λ b : bytes, length b = _)); [| done].
      intros x b b' Hin Hb. revert Hin.
      apply (for_in_preserves (λ b0 : bytes, length b0 = _)); [| exact Hb].
      intros y b0 b1 Hst Hb0. apply image_store_length in Hst. congruence. }
    rewrite length_replicate. lia. }
  rewrite run_lift, run_bind. unfold _block.
  destruct (_encode_pos (0 + _X_START self) _) as [cols | e] eqn:Hc; simpl.
  - destruct (_encode_pos (0 + _Y_START self) _) as [rows | e] eqn:Hr; simpl.
    + right; right. exists cols, rows, pixels.
      split; [by rewrite <- !(assoc_L (++)) | exact Hlen].
    + apply pack_Err in Hr as ->. right; left. by exists cols.
  - left. by eexists.
Qed.

Lemma pairs_list_eq (l : list Z) (hi lo : Z) (n : nat) :
  length l = (2 * n)%nat →
  (∀ k, (k < n)%nat →
     l !! (2 * k)%nat = Some hi ∧ l !! (2 * k + 1)%nat = Some lo) →
  l = concat (replicate n [hi; lo]).
Proof.
  revert l. induction n as [| n IH]; intros l Hlen Hcells.
  - destruct l; [done | simpl in Hlen; lia].
  - destruct l as [| a [| c l]]; [simpl in Hlen; lia.. |].
    destruct (Hcells 0%nat ltac:(lia)) as [[= ->] [= ->]].
    simpl. do 2 f_equal. apply IH; [simpl in Hlen; lia |].
    intros k Hk. destruct (Hcells (S k) ltac:(lia)) as [H1 H2].
    replace (2 * S k)%nat with (S (S (2 * k))) in H1 by lia.
    replace (2 * S k + 1)%nat with (S (S (2 * k + 1))) in H2 by lia.
    by split.
Qed.

Lemma encode_pixel_bytes (v : Z) :
  0 <= v <= 65535 →
  _encode_pixel v = Ok [Z.shiftr v 8; Z.land v 0xFF].
Proof.
  intros Hv. rewrite encode_pixel_Ok by done.
  rewrite Z.shiftr_div_pow2 by lia.
  change 0xFF with (Z.ones 8). by rewrite Z.land_ones by lia.
Qed.

(** X19: blitting an image whose pixels all have the same three channel
    bytes sends, in its one RAM write, the pixel [_encode_pixel] gives for
    their 565 value, width * height times: the same data bytes as [fill]
    with that colour. *)
Theorem image_uniform_is_fill (_BUFFER_SIZE : Z)
    (rotate : Image → Z → Image) (panel : list call → Z → bytes)
    (self : Display) (img : Image) (rotation r g b : Z) (cols rows : bytes)
    (log : list call) :
  let src := rotated rotate img rotation in
  let color := pack565_spec r g b in
  mode img = "RGB" ∨ mode img = "RGBA" →
  rotation = 0 ∨ rotation = 90 ∨ rotation = 180 ∨ rotation = 270 →
  size src = (width self, height self) →
  (∀ x y, 0 <= x < width self → 0 <= y < height self →
     getpixel src (x, y) = PyTuple [r; g; b]) →
  0 <= r <= 255 → 0 <= g <= 255 → 0 <= b <= 255 →
  0 < width self → 0 < height self → 0 < _BUFFER_SIZE →
  _encode_pos (0 + _X_START self) (width self - 1 + _X_START self) = Ok cols →
  _encode_pos (0 + _Y_START self) (height self - 1 + _Y_START self) = Ok rows →
  ∃ px,
    _encode_pixel color = Ok px
    ∧ run (Recorder panel) (image rotate self img rotation) log
      = (Ok tt,
         log ++ [CWrite (_COLUMN_SET self) (Some cols);
                 CWrite (_PAGE_SET self) (Some rows);
                 CWrite (_RAM_WRITE self)
                   (Some (bytes_mul px (width self * height self)))])
    ∧ data_bytes (run (Recorder panel) (image rotate self img rotation) log).2
      = data_bytes (run (Recorder panel) (fill _BUFFER_SIZE self color) log).2.
Proof.
  intros src color Hmode Hrot Hsize Hsame Hr Hg Hb HW HH HB Hc Hrw.
  assert (Hfit : 0 <= color <= 65535).
  { pose proof (proj2 (pack565_range r g b) ltac:(lia)) as Hf.
    unfold fits16 in Hf. subst color. lia. }
  assert (Hrgb : rgb_pixels src).
  { intros x y Hx Hy. rewrite Hsize in Hx, Hy. exists r, g, b.
    by rewrite Hsame. }
  destruct (image_rgb_block rotate panel self img rotation cols rows log
              Hmode Hrot Hsize Hrgb ltac:(lia) ltac:(lia) Hc Hrw)
    as (pixels & Hrun & Hlen & Hcells).
  fold src in Hcells.
  exists [Z.shiftr color 8; Z.land color 0xFF].
  split; [by apply encode_pixel_bytes |].
  assert (Hpix : pixels
                 = bytes_mul [Z.shiftr color 8; Z.land color 0xFF]
                     (width self * height self)).
  { unfold bytes_mul. apply pairs_list_eq; [nia |].
    intros k Hk.
    set (x := Z.of_nat k `mod` width self).
    set (y := Z.of_nat k `div` width self).
    pose proof (Z.mod_pos_bound (Z.of_nat k) (width self) HW) as Hx.
    pose proof (Z.div_mod (Z.of_nat k) (width self) ltac:(lia)) as Hk'.
    fold x in Hx. fold x y in Hk'.
    assert (Hy : 0 <= y < height self).
    { split; [apply Z.div_pos; lia |].
      apply Z.div_lt_upper_bound; nia. }
    destruct (Hcells x y Hx Hy) as [Hhi Hlo].
    unfold pixel565 in Hhi, Hlo. rewrite (Hsame x y Hx Hy) in Hhi, Hlo.
    fold color in Hhi, Hlo.
    replace (Z.to_nat (2 * (y * width self + x))) with (2 * k)%nat
      in Hhi by lia.
    replace (Z.to_nat (2 * (y * width self + x) + 1)) with (2 * k + 1)%nat
      in Hlo by lia.
    by split. }
  rewrite <- Hpix. split; [exact Hrun |].
  rewrite Hrun. cbn [snd].
  pose proof (fill_rectangle_run _BUFFER_SIZE panel self
                0 0 (width self) (height self) color
                cols rows [Z.shiftr color 8; Z.land color 0xFF] log)
    as Hfill.
  cbn zeta in Hfill.
  assert (Ecx : clamp_x self 0 = 0) by (unfold clamp_x; lia).
  assert (Ecy : clamp_y self 0 = 0) by (unfold clamp_y; lia).
  assert (Ecw : clamp_w self 0 (width self) = width self)
    by (unfold clamp_w; rewrite Ecx; lia).
  assert (Ech : clamp_h self 0 (height self) = height self)
    by (unfold clamp_h; rewrite Ecy; lia).
  rewrite Ecx, Ecy, Ecw, Ech in Hfill.
  unfold fill. rewrite Hfill; [| done | | | by apply encode_pixel_bytes].
  - cbn [snd]. rewrite !data_bytes_app.
    rewrite data_bytes_chunk_calls by (done || nia).
    rewrite Hpix. unfold data_bytes. simpl.
    by rewrite !(right_id_L [] (++)), <- !(assoc_L (++)).
  - by replace (0 + width self - 1 + _X_START self)
      with (width self - 1 + _X_START self) by lia.
  - by replace (0 + height self - 1 + _Y_START self)
      with (height self - 1 + _Y_START self) by lia.
Qed.

Lemma image_uniform_is_fill_witness :
  run (Recorder (answering []))
      (image pil_rotate (panel_of 2 2 0 0)
         {| mode := "RGB"; size := (2, 2);
            getpixel := λ _, PyTuple [255; 0; 0] |} 0) []
  = (Ok tt,
     [CWrite (Some 0x2A) (Some [0; 0; 0; 1]);
      CWrite (Some 0x2B) (Some [0; 0; 0; 1]);
      CWrite (Some 0x2C) (Some [248; 0; 248; 0; 248; 0; 248; 0])]).
Proof.
  destruct (image_uniform_is_fill 256 pil_rotate (answering [])
              (panel_of 2 2 0 0)
              {| mode := "RGB"; size := (2, 2);
                 getpixel := λ _, PyTuple [255; 0; 0] |}
              0 255 0 0 [0; 0; 0; 1] [0; 0; 0; 1] [])
    as (px & Hp & Hrun & _);
    [by left | by left | reflexivity | by intros | lia | lia | lia
    | simpl; lia | simpl; lia | lia | reflexivity | reflexivity |].
  assert (px = [248; 0]) as -> by (vm_compute in Hp; congruence).
  exact Hrun.
Defined.

(** ** The SPI link *)

Lemma DisplaySPI_write_sendable (c : option Z) (d : option bytes)
    (s : spi_link) :
  command_ok c →
  DisplaySPI_write c d s
  = (Ok tt,
     {| dc_pin := dc_after (dc_pin s) (CWrite c d);
        wire := wire s ++ wire_of_call (CWrite c d);
        miso := miso s |}).
Proof.
  intros Hc. unfold DisplaySPI_write, send_command, command_byte.
  destruct s as [dc w m].
  destruct c as [b |], d as [d |]; simpl in *;
    rewrite ?bool_decide_eq_true_2 by done;
    unfold do_spi_write, set_dc; simpl;
    by rewrite <- ?(assoc_L (++)), ?(right_id_L [] (++)).
Qed.

Lemma DisplaySPI_read_sendable (c : option Z) (n : Z) (s : spi_link) :
  command_ok c → 0 <= n →
  DisplaySPI_read c n s
  = (Ok (resize (Z.to_nat n) 0 (miso s)),
     {| dc_pin := 0;
        wire := wire s ++ wire_of_call (CRead c n);
        miso := drop (Z.to_nat n) (miso s) |}).
Proof.
  intros Hc Hn. unfold DisplaySPI_read, bytearray.
  rewrite bool_decide_eq_false_2 by lia.
  unfold send_command, command_byte. destruct s as [dc w m].
  destruct (decide (n = 0)) as [-> | Hz].
  - destruct c as [b |]; simpl in *;
      rewrite ?bool_decide_eq_true_2 by done;
      unfold do_spi_write, set_dc; simpl;
      change (Z.to_nat 0) with 0%nat;
      rewrite resize_0, ?(right_id_L [] (++)); reflexivity.
  - destruct c as [b |]; simpl in *;
      rewrite ?bool_decide_eq_true_2 by done;
      unfold do_spi_readinto, do_spi_write, set_dc; simpl;
      by rewrite <- ?(assoc_L (++)), ?(right_id_L [] (++)).
Qed.

(** X20: [DisplaySPI.write] with a command byte and data makes two
    transfers, the command with the data/command pin low and then the data
    with the pin high.  A command outside [0, 256) raises [ValueError] once
    the pin has been driven low: nothing is transmitted and the data is
    withheld. *)
Theorem DisplaySPI_write_command_byte (c : Z) (d : option bytes)
    (s : spi_link) :
  (0 <= c < 256 →
   ∀ data, d = Some data →
     DisplaySPI_write (Some c) d s
     = (Ok tt,
        {| dc_pin := 1;
           wire := wire s ++ [spi_write 0 [c]; spi_write 1 data];
           miso := miso s |}))
  ∧ (¬ (0 <= c < 256) →
     DisplaySPI_write (Some c) d s
     = (Err (ValueError "byte must be in range(0, 256)"),
        {| dc_pin := 0; wire := wire s; miso := miso s |})).
Proof.
  split.
  - intros Hc data ->. by apply DisplaySPI_write_wire.
  - intros Hc. unfold DisplaySPI_write, send_command, command_byte.
    by rewrite bool_decide_eq_false_2.
Qed.

Lemma DisplaySPI_write_command_byte_witness :
  DisplaySPI_write (Some 0x2C) (Some [248; 0]) idle_link
    = (Ok tt,
       {| dc_pin := 1;
          wire := [spi_write 0 [0x2C]; spi_write 1 [248; 0]];
          miso := [] |})
  ∧ DisplaySPI_write (Some 256) (Some [248; 0]) idle_link
    = (Err (ValueError "byte must be in range(0, 256)"), idle_link).
Proof.
  split.
  - apply (proj1 (DisplaySPI_write_command_byte 0x2C (Some [248; 0])
                    idle_link)); [lia | reflexivity].
  - apply (proj2 (DisplaySPI_write_command_byte 256 (Some [248; 0])
                    idle_link)). lia.
Defined.

(** X21: [DisplaySPI.read] of a count that is not negative returns exactly
    [count] bytes, the next ones of the line (zeros once it is exhausted),
    leaves the data/command pin low and makes no read transfer when the
    count is 0; a negative count raises [ValueError] before the link is
    touched. *)
Theorem DisplaySPI_read_count (c : option Z) (count : Z) (s : spi_link) :
  (command_ok c → 0 <= count →
   ∃ data s',
     DisplaySPI_read c count s = (Ok data, s')
     ∧ Z.of_nat (length data) = count
     ∧ data = resize (Z.to_nat count) 0 (miso s)
     ∧ dc_pin s' = 0
     ∧ miso s' = drop (Z.to_nat count) (miso s)
     ∧ wire s'
       = wire s ++ command_transfer c
                ++ (if bool_decide (count ≠ 0) then [spi_readinto 0 count]
                    else []))
  ∧ (count < 0 →
     DisplaySPI_read c count s = (Err (ValueError "negative count"), s)).
Proof.
  split.
  - intros Hc Hn. eexists _, _.
    split; [by apply DisplaySPI_read_sendable |].
    split; [rewrite length_resize; lia |]. by repeat split.
  - intros Hn. unfold DisplaySPI_read, bytearray.
    by rewrite bool_decide_eq_true_2.
Qed.

Lemma DisplaySPI_read_count_witness :
  ∃ data s',
    DisplaySPI_read (Some 0x2E) 3
      {| dc_pin := 1; wire := []; miso := [252; 0; 0; 7] |}
    = (Ok data, s')
    ∧ data = [252; 0; 0]
    ∧ dc_pin s' = 0
    ∧ miso s' = [7]
    ∧ wire s' = [spi_write 0 [0x2E]; spi_readinto 0 3].
Proof.
  destruct (proj1 (DisplaySPI_read_count (Some 0x2E) 3
                     {| dc_pin := 1; wire := []; miso := [252; 0; 0; 7] |})
              ltac:(simpl; lia) ltac:(lia))
    as (data & s' & Hrun & _ & Hdata & Hdc & Hmiso & Hwire).
  exists data, s'. split; [exact Hrun |]. split; [exact Hdata |].
  split; [exact Hdc |]. split; [exact Hmiso | exact Hwire].
Defined.

(** ** [Display] over [DisplaySPI] *)

Lemma recorder_extends {A : Type} (panel : list call → Z → bytes)
    (p : io A) (log : list call) :
  ∃ new, (run (Recorder panel) p log).2 = log ++ new.
Proof.
  revert log. induction p as [a | e | c d k IH | c n k IH]; intros log; simpl.
  - exists []. by rewrite (right_id_L [] (++)).
  - exists []. by rewrite (right_id_L [] (++)).
  - destruct (IH (log ++ [CWrite c d])) as [new Hnew].
    exists (CWrite c d :: new). by rewrite Hnew, <- (assoc_L (++)).
  - destruct (IH (panel log n) (log ++ [CRead c n])) as [new Hnew].
    exists (CRead c n :: new). by rewrite Hnew, <- (assoc_L (++)).
Qed.

Lemma consumed_app (l k : list call) :
  consumed (l ++ k) = (consumed l + consumed k)%nat.
Proof.
  unfold consumed. rewrite fmap_app.
  induction (read_count <$> l) as [| n ns IH]; simpl; [done |].
  rewrite IH. lia.
Qed.

Lemma data_mode_bytes_app (w w' : list transfer) :
  data_mode_bytes (w ++ w') = data_mode_bytes w ++ data_mode_bytes w'.
Proof. unfold data_mode_bytes. by rewrite fmap_app, concat_app. Qed.

Lemma data_mode_bytes_calls (cs : list call) :
  data_mode_bytes (concat (wire_of_call <$> cs)) = data_bytes cs.
Proof.
  induction cs as [| c cs IH]; [done |].
  change (data_mode_bytes (wire_of_call c ++ concat (wire_of_call <$> cs))
          = data_of c ++ data_bytes cs).
  rewrite data_mode_bytes_app, IH. f_equal.
  destruct c as [[b |] [d |] | [b |] n]; simpl; try reflexivity;
    unfold data_mode_bytes; simpl; try case_bool_decide; simpl;
    by rewrite ?(right_id_L [] (++)).
Qed.

(** Running a program on the SPI link does what its recorded calls say,
    when the controller is the one behind the line. *)
Lemma spi_simulation {A : Type} (line : bytes) (p : io A) :
  ∀ (s : spi_link) (log : list call) (r : result A) (new : list call),
    miso s = drop (consumed log) line →
    run (Recorder (miso_panel line)) p log = (r, log ++ new) →
    Forall sendable new →
    run DisplaySPI p s
    = (r,
       {| dc_pin := foldl dc_after (dc_pin s) new;
          wire := wire s ++ concat (wire_of_call <$> new);
          miso := drop (consumed (log ++ new)) line |}).
Proof.
  induction p as [a | e | c d k IH | c n k IH];
    intros s log r new Hmiso Hrun Hok.
  - simpl in Hrun. injection Hrun as <- Hlog.
    assert (new = []) as ->.
    { apply (app_inv_head log). by rewrite (right_id_L [] (++)). }
    simpl. rewrite !(right_id_L [] (++)), <- Hmiso. by destruct s.
  - simpl in Hrun. injection Hrun as <- Hlog.
    assert (new = []) as ->.
    { apply (app_inv_head log). by rewrite (right_id_L [] (++)). }
    simpl. rewrite !(right_id_L [] (++)), <- Hmiso. by destruct s.
  - change (run (Recorder (miso_panel line)) k (log ++ [CWrite c d])
            = (r, log ++ new)) in Hrun.
    destruct (recorder_extends (miso_panel line) k (log ++ [CWrite c d]))
      as [new' Hnew'].
    rewrite Hrun in Hnew'. cbn [snd] in Hnew'.
    rewrite <- (assoc_L (++)) in Hnew'. apply app_inv_head in Hnew'.
    subst new. apply Forall_cons in Hok as [Hcall Hok].
    change (run DisplaySPI (Write c d k) s)
      with (match DisplaySPI_write c d s with
            | (Ok _, s') => run DisplaySPI k s'
            | (Err e, s') => (Err e, s')
            end).
    rewrite (DisplaySPI_write_sendable c d s Hcall).
    rewrite (IH _ (log ++ [CWrite c d]) r new').
    + cbn [dc_pin wire miso]. rewrite <- !(assoc_L (++)). reflexivity.
    + cbn [miso]. rewrite consumed_app. simpl.
      by rewrite Nat.add_0_r.
    + by rewrite <- (assoc_L (++)).
    + exact Hok.
  - change (run (Recorder (miso_panel line)) (k (miso_panel line log n))
              (log ++ [CRead c n])
            = (r, log ++ new)) in Hrun.
    destruct (recorder_extends (miso_panel line) (k (miso_panel line log n))
                (log ++ [CRead c n])) as [new' Hnew'].
    rewrite Hrun in Hnew'. cbn [snd] in Hnew'.
    rewrite <- (assoc_L (++)) in Hnew'. apply app_inv_head in Hnew'.
    subst new. apply Forall_cons in Hok as [[Hcmd Hn] Hok].
    change (run DisplaySPI (Read c n k) s)
      with (match DisplaySPI_read c n s with
            | (Ok data, s') => run DisplaySPI (k data) s'
            | (Err e, s') => (Err e, s')
            end).
    rewrite (DisplaySPI_read_sendable c n s Hcmd Hn).
    rewrite Hmiso. fold (miso_panel line log n).
    rewrite (IH _ _ (log ++ [CRead c n]) r new').
    + cbn [dc_pin wire miso]. rewrite <- !(assoc_L (++)). reflexivity.
    + cbn [miso]. rewrite consumed_app, drop_drop. f_equal.
      unfold consumed. simpl. lia.
    + by rewrite <- (assoc_L (++)).
    + exact Hok.
Qed.

(** X22: what a bus program does on [DisplaySPI] is what its calls say.  If
    every call the program makes has a byte (or no) command and no negative
    read count, then on the link it returns what it returns to the recorder
    whose controller answers from the line, and it leaves on the wire the
    transfers of its calls, in order: each command byte with the pin low,
    each data block with the pin high, so the bytes sent in data mode are
    exactly the data of the calls. *)
Theorem spi_carries_calls {A : Type} (p : io A) (s : spi_link) :
  let out := run (Recorder (miso_panel (miso s))) p [] in
  Forall sendable out.2 →
  ∃ s',
    run DisplaySPI p s = (out.1, s')
    ∧ wire s' = wire s ++ concat (wire_of_call <$> out.2)
    ∧ data_mode_bytes (concat (wire_of_call <$> out.2)) = data_bytes out.2
    ∧ dc_pin s' = foldl dc_after (dc_pin s) out.2
    ∧ miso s' = drop (consumed out.2) (miso s).
Proof.
  intros out Hok. eexists. split.
  - apply (spi_simulation (miso s) p s [] out.1 out.2); [done | | done].
    subst out. by destruct (run (Recorder (miso_panel (miso s))) p []).
  - repeat split. apply data_mode_bytes_calls.
Qed.

Lemma spi_carries_calls_witness :
  run DisplaySPI (pixel (panel_of 2 2 0 0) 1 0 (Some 0xF800)) idle_link
  = (Ok PyNone,
     {| dc_pin := 1;
        wire := [spi_write 0 [0x2A]; spi_write 1 [0; 1; 0; 1];
                 spi_write 0 [0x2B]; spi_write 1 [0; 0; 0; 0];
                 spi_write 0 [0x2C]; spi_write 1 [248; 0]];
        miso := [] |}).
Proof.
  destruct (spi_carries_calls (pixel (panel_of 2 2 0 0) 1 0 (Some 0xF800))
              idle_link) as (s' & Hrun & Hwire & _ & Hdc & Hmiso).
  - repeat (apply List.Forall_cons; [simpl; lia |]). apply List.Forall_nil.
  - rewrite Hrun. destruct s' as [dc w m]. simpl in Hwire, Hdc, Hmiso.
    by rewrite Hwire, Hdc, Hmiso.
Defined.

Lemma consumed_writes (cs : list call) :
  Forall (λ c, ∃ command data, c = CWrite command data) cs → consumed cs = 0%nat.
Proof.
  intros Hcs. unfold consumed.
  rewrite (sum_list_fmap_same 0); [lia |].
  eapply Forall_impl; [exact Hcs |]. by intros c (command & data & ->).
Qed.

Lemma chunk_calls_are_data (px : bytes) (size n : Z) :
  Forall (λ c, ∃ d, c = CWrite None (Some d)) (chunk_calls px size n).
Proof.
  unfold chunk_calls. apply Forall_app. split.
  - apply Forall_replicate. by eexists.
  - apply List.Forall_cons; [by eexists | apply List.Forall_nil].
Qed.

Lemma foldl_dc_after_data (dc : Z) (cs : list call) (d : bytes) :
  foldl dc_after dc (cs ++ [CWrite None (Some d)]) = 1.
Proof. by rewrite foldl_app. Qed.

(** X23: with opcodes that are bytes, a rectangle fill on [DisplaySPI]
    succeeds, reads nothing from the line, leaves the data/command pin high
    and has sent in data mode the column pair, the row pair and then the
    encoded pixel once per pixel of the clamped rectangle. *)
Theorem fill_rectangle_on_spi (_BUFFER_SIZE : Z) (self : Display)
    (x y w h color : Z) (cols rows px : bytes) (s : spi_link) :
  let cx := clamp_x self x in
  let cy := clamp_y self y in
  let cw := clamp_w self x w in
  let ch := clamp_h self y h in
  0 < _BUFFER_SIZE →
  command_ok (_COLUMN_SET self) → command_ok (_PAGE_SET self) →
  command_ok (_RAM_WRITE self) →
  _encode_pos (cx + _X_START self) (cx + cw - 1 + _X_START self) = Ok cols →
  _encode_pos (cy + _Y_START self) (cy + ch - 1 + _Y_START self) = Ok rows →
  _encode_pixel color = Ok px →
  ∃ sent,
    run DisplaySPI (fill_rectangle _BUFFER_SIZE self x y w h color) s
    = (Ok tt, {| dc_pin := 1; wire := wire s ++ sent; miso := miso s |})
    ∧ data_mode_bytes sent = cols ++ rows ++ bytes_mul px (cw * ch).
Proof.
  intros cx cy cw ch Hb Hcs Hps Hrw Hc Hr Hp.
  pose proof (fill_rectangle_run _BUFFER_SIZE (miso_panel (miso s)) self
                x y w h color cols rows px [] Hb Hc Hr Hp) as Hrun.
  fold cx cy cw ch in Hrun.
  set (new := window_calls self cols rows (CWrite (_RAM_WRITE self) (Some []))
              ++ chunk_calls px _BUFFER_SIZE (cw * ch)) in Hrun.
  assert (Hn : 0 <= cw * ch).
  { pose proof (clamp_w_min self x w). pose proof (clamp_h_min self y h).
    subst cw ch. nia. }
  assert (Hwrites : Forall (λ c, ∃ command data, c = CWrite command data) new).
  { subst new. apply Forall_app. split.
    - repeat (apply List.Forall_cons; [by eexists _, _ |]).
      apply List.Forall_nil.
    - eapply Forall_impl; [apply chunk_calls_are_data |].
      intros c [d ->]. by eexists _, _. }
  assert (Hok : Forall sendable new).
  { subst new. apply Forall_app. split.
    - repeat (apply List.Forall_cons; [done |]). apply List.Forall_nil.
    - eapply Forall_impl; [apply chunk_calls_are_data |].
      by intros c [d ->]. }
  exists (concat (wire_of_call <$> new)). split.
  - rewrite (spi_simulation (miso s) _ s [] (Ok tt) new eq_refl Hrun Hok).
    f_equal. f_equal.
    + subst new. unfold chunk_calls.
      rewrite (assoc_L (++)). apply foldl_dc_after_data.
    + simpl. by rewrite (consumed_writes new Hwrites).
  - rewrite data_mode_bytes_calls. subst new.
    rewrite data_bytes_app, data_bytes_chunk_calls by done.
    unfold data_bytes. simpl.
    by rewrite !(right_id_L [] (++)), <- !(assoc_L (++)).
Qed.

Lemma fill_rectangle_on_spi_witness :
  ∃ sent,
    run DisplaySPI (fill_rectangle 4 (panel_of 3 3 0 0) 0 0 3 3 0xF800)
        idle_link
    = (Ok tt, {| dc_pin := 1; wire := sent; miso := [] |})
    ∧ data_mode_bytes sent = [0; 0; 0; 2] ++ [0; 0; 0; 2] ++ bytes_mul [248; 0] 9.
Proof.
  apply (fill_rectangle_on_spi 4 (panel_of 3 3 0 0) 0 0 3 3 0xF800
           [0; 0; 0; 2] [0; 0; 0; 2] [248; 0] idle_link);
    first [reflexivity | simpl; lia].
Defined.

(** X24: when the transport answers the RAM read with a buffer that is not
    three bytes long, [pixel(x, y)] raises [struct.error] from the decoding,
    after the window and the read have been issued. *)
Theorem pixel_read_wrong_length (panel : list call → Z → bytes)
    (self : Display) (x y : Z) (cols rows : bytes) (log : list call) :
  _encode_pos (x + _X_START self) (x + _X_START self) = Ok cols →
  _encode_pos (y + _Y_START self) (y + _Y_START self) = Ok rows →
  length (panel (log ++ [CWrite (_COLUMN_SET self) (Some cols);
                         CWrite (_PAGE_SET self) (Some rows)]) 3) ≠ 3%nat →
  run (Recorder panel) (pixel self x y None) log
  = (Err struct_error,
     log ++ [CWrite (_COLUMN_SET self) (Some cols);
             CWrite (_PAGE_SET self) (Some rows);
             CRead (_RAM_READ self) 3]).
Proof.
  intros Hc Hr Hlen.
  rewrite (pixel_read_run panel self x y cols rows log Hc Hr). cbn zeta.
  unfold _decode_pixel, struct.unpack.
  rewrite bool_decide_eq_false_2; [reflexivity |].
  unfold _DECODE_PIXEL. simpl. lia.
Qed.

Lemma pixel_read_wrong_length_witness :
  run (Recorder (answering [248; 0])) (pixel (panel_of 2 2 0 0) 1 1 None) []
  = (Err struct_error,
     [CWrite (Some 0x2A) (Some [0; 1; 0; 1]);
      CWrite (Some 0x2B) (Some [0; 1; 0; 1]);
      CRead (Some 0x2E) 3]).
Proof.
  apply (pixel_read_wrong_length (answering [248; 0]) (panel_of 2 2 0 0) 1 1
           [0; 1; 0; 1] [0; 1; 0; 1] []); [reflexivity | reflexivity |].
  simpl. lia.
Defined.

Lemma resize_three (l : bytes) : ∃ r g b, resize 3 0 l = [r; g; b].
Proof.
  destruct l as [| r [| g [| b l]]]; simpl.
  - by exists 0, 0, 0.
  - by exists r, 0, 0.
  - by exists r, g, 0.
  - exists r, g, b. by rewrite resize_0.
Qed.

(** X25: on [DisplaySPI], with opcodes that are bytes and coordinates that
    fit the position format, [pixel(x, y)] never fails: it sends the two
    window commands with their payloads and the RAM-read command, takes
    exactly three bytes from the line (zeros where the line is exhausted)
    and returns their 565 value, leaving the data/command pin low. *)
Theorem pixel_read_on_spi (self : Display) (x y : Z) (cols rows : bytes)
    (s : spi_link) :
  command_ok (_COLUMN_SET self) → command_ok (_PAGE_SET self) →
  command_ok (_RAM_READ self) →
  _encode_pos (x + _X_START self) (x + _X_START self) = Ok cols →
  _encode_pos (y + _Y_START self) (y + _Y_START self) = Ok rows →
  ∃ r g b,
    resize 3 0 (miso s) = [r; g; b]
    ∧ run DisplaySPI (pixel self x y None) s
      = (Ok (PyInt (pack565_spec r g b)),
         {| dc_pin := 0;
            wire := wire s
                    ++ command_transfer (_COLUMN_SET self)
                    ++ [spi_write 1 cols]
                    ++ command_transfer (_PAGE_SET self)
                    ++ [spi_write 1 rows]
                    ++ command_transfer (_RAM_READ self)
                    ++ [spi_readinto 0 3];
            miso := drop 3 (miso s) |}).
Proof.
  intros Hcs Hps Hrd Hc Hr.
  destruct (resize_three (miso s)) as (r & g & b & Hline).
  exists r, g, b. split; [exact Hline |].
  pose proof (pixel_read_run (miso_panel (miso s)) self x y cols rows []
                Hc Hr) as Hrun.
  cbn zeta in Hrun.
  assert (Hans : miso_panel (miso s)
                   ([] ++ [CWrite (_COLUMN_SET self) (Some cols);
                           CWrite (_PAGE_SET self) (Some rows)]) 3
                 = [r; g; b]) by exact Hline.
  rewrite Hans in Hrun. rewrite decode_pixel_three in Hrun.
  rewrite (spi_simulation (miso s) _ s [] _ _ eq_refl Hrun).
  - f_equal. f_equal.
    simpl. rewrite <- !(assoc_L (++)). by rewrite (right_id_L [] (++)).
  - repeat (apply List.Forall_cons; [simpl; try split; (done || lia) |]).
    apply List.Forall_nil.
Qed.

Lemma pixel_read_on_spi_witness :
  run DisplaySPI (pixel (panel_of 2 2 0 0) 1 1 None)
      {| dc_pin := 1; wire := []; miso := [252; 4; 8; 9] |}
  = (Ok (PyInt 0xF821),
     {| dc_pin := 0;
        wire := [spi_write 0 [0x2A]; spi_write 1 [0; 1; 0; 1];
                 spi_write 0 [0x2B]; spi_write 1 [0; 1; 0; 1];
                 spi_write 0 [0x2E]; spi_readinto 0 3];
        miso := [9] |}).
Proof.
  destruct (pixel_read_on_spi (panel_of 2 2 0 0) 1 1
              [0; 1; 0; 1] [0; 1; 0; 1]
              {| dc_pin := 1; wire := []; miso := [252; 4; 8; 9] |})
    as (r & g & b & Hline & Hrun);
    [simpl; lia | simpl; lia | simpl; lia | reflexivity | reflexivity |].
  injection Hline as <- <- <-. exact Hrun.
Defined.
